(** * Worker status collector (gpustack/worker/collector.py)

    A shallow embedding of [WorkerStatusCollector.collect] and of its three
    injection steps, together with the properties of the assembled [Worker]
    record.

    Conventions of the embedding.
    - Python [int] is [Z]; [str] is [string]; [Optional[T]] is [option T];
      a [dict] keyed by GPU index is a [gmap Z _]; a [list] is a [list].
    - A call that may raise returns an [Outcome]: [Returned v] or
      [Raised e].  Only subclasses of [Exception] are modelled, since these
      are what the [except Exception] handlers of the source catch.
    - The source mutates the status object in place, and through it the
      memory record, the filesystem list and the device records it got
      from the detector.  Within one call each of these objects is
      reachable from the status by one path only, so in-place mutation is
      functional update of the status, and the partially updated status is
      what survives an exception caught by a handler.  [collect] gives the
      outcome of one call as a function of the detector's answers.  What a
      call leaves behind in the objects of a detector that hands out the
      same objects on every call is [after_collect], and two calls in a
      row on such a collector are [collect_twice].
    - [logger.error] writes to the process-wide log only and is left out:
      nothing in the returned record depends on it. *)

From Stdlib Require Import ZArith String List Bool Lia.
From stdpp Require Import base option list gmap strings fin_maps.

Local Open Scope string_scope.
Local Open Scope Z_scope.

(** ** Exceptions and outcomes *)

(** The exception classes the source distinguishes: [GPUDetectExepction]
    (sic) has its own handler in [collect]; [AttributeError] and
    [TypeError] are what attribute access and [+] on [None] raise; any
    other [Exception] is [OtherException]. *)
Inductive exn : Type :=
  | GPUDetectExepction (msg : string)
  | AttributeError
  | TypeError
  | OtherException (msg : string).

Inductive Outcome (A : Type) : Type :=
  | Returned (a : A)
  | Raised (e : exn).
Arguments Returned {A} a.
Arguments Raised {A} e.

#[global] Instance Outcome_bind : MBind Outcome := fun _ _ k c =>
  match c with
  | Returned a => k a
  | Raised e => Raised e
  end.

(** The call came back with a value instead of raising. *)
Definition returns {A} (c : Outcome A) : Prop :=
  match c with Returned _ => True | Raised _ => False end.

(** Python truthiness of the values the source tests with [if] / [or]. *)
Definition truthy_int (n : option Z) : bool :=
  match n with
  | Some v => negb (v =? 0)
  | None => false
  end.

Definition truthy_str (s : option string) : bool :=
  match s with
  | Some "" => false
  | Some _ => true
  | None => false
  end.

Definition truthy_list {A} (l : option (list A)) : bool :=
  match l with
  | Some (_ :: _) => true
  | _ => false
  end.

(** [needle in hay] on [str]: substring test. *)
Fixpoint str_contains (needle hay : string) : bool :=
  String.prefix needle hay ||
  match hay with
  | EmptyString => false
  | String _ rest => str_contains needle rest
  end.

(** ** Data model (gpustack.schemas, gpustack.policies.base) *)

(** Modelled from the spec: the schema modules are not part of the sources
    at hand.  The payloads of cpu, swap, kernel and uptime are never
    inspected by the collector, so their types are left open. *)
Class DetectorSchema : Type := {
  CPUInfo : Type;
  SwapInfo : Type;
  KernelInfo : Type;
  UptimeInfo : Type
}.

(** Modelled from the spec: memory record with capacity, free, allocated
    and the unified-memory flag. *)
Module MemoryInfo.
Record t : Type := Build {
  total : option Z;
  free : option Z;
  is_unified_memory : bool;
  allocated : option Z
}.
Definition set_is_unified_memory (b : bool) (m : t) : t :=
  Build (total m) (free m) b (allocated m).
Definition set_allocated (a : option Z) (m : t) : t :=
  Build (total m) (free m) (is_unified_memory m) a.
End MemoryInfo.

(** Modelled from the spec: mount point with name, mount path and four byte
    counts.  The counts are optional: summing an unset count is what the
    handler of [_inject_computed_filesystem_usage] guards against. *)
Module MountPoint.
Record t : Type := Build {
  name : string;
  mount_point : string;
  total : option Z;
  used : option Z;
  free : option Z;
  available : option Z
}.
End MountPoint.

(** Modelled from the spec: OS descriptor with name and version. *)
Module OperatingSystemInfo.
Record t : Type := Build {
  name : string;
  version : string
}.
End OperatingSystemInfo.

(** Modelled from the spec: GPU device with its index and memory record.
    The memory record is optional; [device.memory.allocated = ...] raises
    [AttributeError] on a device without one. *)
Module GPUDeviceInfo.
Record t : Type := Build {
  name : string;
  index : Z;
  memory : option MemoryInfo.t
}.
Definition set_memory (m : option MemoryInfo.t) (d : t) : t :=
  Build (name d) (index d) m.
End GPUDeviceInfo.

(** Modelled from the spec: relay server record with pid, port and GPU
    index, built by [collect] with these three keyword arguments. *)
Module RPCServer.
Record t : Type := Build {
  pid : Z;
  port : Z;
  gpu_index : Z
}.
End RPCServer.

(** Modelled from the spec: the detector's system info, with the seven
    attributes [collect] copies onto the status. *)
Module SystemInfo.
Record t `{DetectorSchema} : Type := Build {
  cpu : option CPUInfo;
  memory : option MemoryInfo.t;
  swap : option SwapInfo;
  filesystem : option (list MountPoint.t);
  os : option OperatingSystemInfo.t;
  kernel : option KernelInfo;
  uptime : option UptimeInfo
}.
End SystemInfo.

(** Modelled from the spec: the status snapshot; every field is optional
    and unset on a fresh [WorkerStatus()]. *)
Module WorkerStatus.
Record t `{DetectorSchema} : Type := Build {
  cpu : option CPUInfo;
  memory : option MemoryInfo.t;
  swap : option SwapInfo;
  filesystem : option (list MountPoint.t);
  os : option OperatingSystemInfo.t;
  kernel : option KernelInfo;
  uptime : option UptimeInfo;
  gpu_devices : option (list GPUDeviceInfo.t);
  rpc_servers : option (gmap Z RPCServer.t)
}.

Section Setters.
Context `{DetectorSchema}.

(** [WorkerStatus()]: every field unset. *)
Definition empty : t :=
  Build _ None None None None None None None None None.

Definition set_memory (m : option MemoryInfo.t) (s : t) : t :=
  Build _ (cpu s) m (swap s) (filesystem s) (os s) (kernel s) (uptime s)
    (gpu_devices s) (rpc_servers s).
Definition set_filesystem (f : option (list MountPoint.t)) (s : t) : t :=
  Build _ (cpu s) (memory s) (swap s) f (os s) (kernel s) (uptime s)
    (gpu_devices s) (rpc_servers s).
Definition set_gpu_devices (g : option (list GPUDeviceInfo.t)) (s : t) : t :=
  Build _ (cpu s) (memory s) (swap s) (filesystem s) (os s) (kernel s)
    (uptime s) g (rpc_servers s).
Definition set_rpc_servers (r : option (gmap Z RPCServer.t)) (s : t) : t :=
  Build _ (cpu s) (memory s) (swap s) (filesystem s) (os s) (kernel s)
    (uptime s) (gpu_devices s) r.
(** The seven assignments [status.cpu = system_info.cpu] ...
    [status.uptime = system_info.uptime]. *)
Definition set_system_info (si : SystemInfo.t) (s : t) : t :=
  Build _ (SystemInfo.cpu si) (SystemInfo.memory si) (SystemInfo.swap si)
    (SystemInfo.filesystem si) (SystemInfo.os si) (SystemInfo.kernel si)
    (SystemInfo.uptime si) (gpu_devices s) (rpc_servers s).
End Setters.
End WorkerStatus.

(** Modelled from the spec: the two lifecycle states [collect] assigns. *)
Inductive WorkerStateEnum : Type := NOT_READY | READY.

(** Modelled from the spec: the output record, with the eight keyword
    arguments [collect] passes to [Worker(...)]. *)
Module Worker.
Record t `{DetectorSchema} : Type := Build {
  name : string;
  hostname : string;
  ip : string;
  port : Z;
  state : WorkerStateEnum;
  status : WorkerStatus.t;
  state_message : option string;
  worker_uuid : option string
}.
End Worker.

(** Modelled from the spec: [gpustack.policies.base.Allocated], the
    transient accumulator of claimed RAM and of claimed VRAM per GPU index. *)
Module Allocated.
Record t : Type := Build {
  ram : Z;
  vram : gmap Z Z
}.
End Allocated.

(** Modelled from the spec: one resource claim, with an optional RAM
    scalar and an optional mapping from GPU index to VRAM scalar. *)
Module ComputedResourceClaim.
Record t : Type := Build {
  ram : option Z;
  vram : option (gmap Z Z)
}.
End ComputedResourceClaim.

(** Modelled from the spec: a subordinate participant of a distributed
    instance, with its worker name and its own claim. *)
Module SubordinateWorker.
Record t : Type := Build {
  worker_name : option string;
  computed_resource_claim : option ComputedResourceClaim.t
}.
End SubordinateWorker.

(** Modelled from the spec: the distributed topology of an instance. *)
Module DistributedServers.
Record t : Type := Build {
  subordinate_workers : option (list SubordinateWorker.t)
}.
End DistributedServers.

(** Modelled from the spec: a model instance, with its owning worker's
    name, its own claim and its optional distributed topology. *)
Module ModelInstance.
Record t : Type := Build {
  worker_name : option string;
  computed_resource_claim : option ComputedResourceClaim.t;
  distributed_servers : option DistributedServers.t
}.
End ModelInstance.

(** ** Collaborators *)

(** Modelled from the spec: a relay server process handle, read by
    [collect] as [process.process.pid] and [process.port]. *)
Module Process.
Record t : Type := Build { pid : Z }.
End Process.

Module RPCServerProcess.
Record t : Type := Build {
  process : Process.t;
  port : Z
}.
End RPCServerProcess.

(** Modelled from the spec: the worker manager, given by the UUID it
    handed out at construction time and by what [get_rpc_servers()] does
    when called. *)
Module WorkerManager.
Record t : Type := Build {
  get_worker_uuid : string;
  get_rpc_servers : Outcome (gmap Z RPCServerProcess.t)
}.
End WorkerManager.

(** Modelled from the spec: the detector factory, given by what
    [detect_system_info()] and [detect_gpus()] do when called. *)
Module DetectorFactory.
Record t `{DetectorSchema} : Type := Build {
  detect_system_info : Outcome SystemInfo.t;
  detect_gpus : Outcome (list GPUDeviceInfo.t)
}.
End DetectorFactory.

(** Modelled from the spec: the cluster client, given by what
    [model_instances.list()] does when called; the value returned is the
    [items] list of the answer. *)
Module ClientSet.
Record t : Type := Build {
  model_instances_list : Outcome (list ModelInstance.t)
}.
End ClientSet.

(** ** The module-level helper *)

(** One turn of [for gpu_index, vram in (claim.vram or {}).items()]:
    [allocated.vram[gpu_index] = (allocated.vram.get(gpu_index) or 0) + vram]. *)
Definition add_vram (acc : gmap Z Z) (item : Z * Z) : gmap Z Z :=
  <[item.1 := default 0 (acc !! item.1) + item.2]> acc.

Definition aggregate_computed_resource_claim_allocated
    (allocated : Allocated.t)
    (computed_resource_claim : option ComputedResourceClaim.t) : Allocated.t :=
  match computed_resource_claim with
  | None => allocated
  | Some claim =>
      let ram :=
        if truthy_int (ComputedResourceClaim.ram claim)
        then Allocated.ram allocated + default 0 (ComputedResourceClaim.ram claim)
        else Allocated.ram allocated in
      let items := map_to_list (default ∅ (ComputedResourceClaim.vram claim)) in
      Allocated.Build ram (foldl add_vram (Allocated.vram allocated) items)
  end.

(** ** The collector *)

Module WorkerStatusCollector.
Record t `{DetectorSchema} : Type := Build {
  _worker_name : string;
  _hostname : string;
  _worker_ip : string;
  _worker_port : Z;
  _clientset : option ClientSet.t;
  _worker_manager : option WorkerManager.t;
  _detector_factory : DetectorFactory.t
}.

Section Methods.
Context `{DetectorSchema}.

(** [__init__]: [self._worker_uuid] is set from the manager when one
    is given. *)
Definition _worker_uuid (self : t) : option string :=
  WorkerManager.get_worker_uuid <$> _worker_manager self.

Definition _inject_unified_memory (status : WorkerStatus.t)
    : Outcome WorkerStatus.t :=
  is_unified_memory ←
    match WorkerStatus.gpu_devices status with
    | Some (device :: _) =>
        match GPUDeviceInfo.memory device with
        | Some m => Returned (MemoryInfo.is_unified_memory m)
        | None => Raised AttributeError
        end
    | _ => Returned false
    end;
  Returned
    match WorkerStatus.memory status with
    | Some m =>
        WorkerStatus.set_memory
          (Some (MemoryInfo.set_is_unified_memory is_unified_memory m))
          status
    | None => status
    end.

(** [a + b] where either side may be [None]. *)
Definition py_add (a b : option Z) : Outcome (option Z) :=
  match a, b with
  | Some x, Some y => Returned (Some (x + y))
  | _, _ => Raised TypeError
  end.

(** The body of [for mountpoint in status.filesystem]. *)
Definition add_mountpoint (computed mountpoint : MountPoint.t)
    : Outcome MountPoint.t :=
  total ← py_add (MountPoint.total computed) (MountPoint.total mountpoint);
  used ← py_add (MountPoint.used computed) (MountPoint.used mountpoint);
  free ← py_add (MountPoint.free computed) (MountPoint.free mountpoint);
  available ←
    py_add (MountPoint.available computed) (MountPoint.available mountpoint);
  Returned
    (MountPoint.Build (MountPoint.name computed)
       (MountPoint.mount_point computed) total used free available).

Fixpoint sum_mountpoints (computed : MountPoint.t)
    (filesystem : list MountPoint.t) : Outcome MountPoint.t :=
  match filesystem with
  | [] => Returned computed
  | mountpoint :: rest =>
      computed' ← add_mountpoint computed mountpoint;
      sum_mountpoints computed' rest
  end.

Definition computed_init : MountPoint.t :=
  MountPoint.Build "computed" "/" (Some 0) (Some 0) (Some 0) (Some 0).

Definition _inject_computed_filesystem_usage (status : WorkerStatus.t)
    : WorkerStatus.t :=
  match WorkerStatus.os status with
  | None => status
  | Some os =>
      if negb (str_contains "Windows" (OperatingSystemInfo.name os))
      then status
      else
        match WorkerStatus.filesystem status with
        | None => status
        | Some filesystem =>
            match sum_mountpoints computed_init filesystem with
            | Returned computed =>
                WorkerStatus.set_filesystem
                  (Some (filesystem ++ [computed])%list) status
            | Raised _ => status
            end
        end
  end.

(** The body of [for subworker in ...subordinate_workers]. *)
Definition aggregate_subworker (worker_name : string)
    (allocated : Allocated.t) (subworker : SubordinateWorker.t)
    : Allocated.t :=
  if bool_decide (SubordinateWorker.worker_name subworker ≠ Some worker_name)
  then allocated
  else aggregate_computed_resource_claim_allocated allocated
         (SubordinateWorker.computed_resource_claim subworker).

(** The body of [for model_instance in model_instances.items]. *)
Definition aggregate_model_instance (worker_name : string)
    (allocated : Allocated.t) (model_instance : ModelInstance.t)
    : Allocated.t :=
  let allocated :=
    match ModelInstance.distributed_servers model_instance with
    | Some ds =>
        if truthy_list (DistributedServers.subordinate_workers ds)
        then foldl (aggregate_subworker worker_name) allocated
               (default [] (DistributedServers.subordinate_workers ds))
        else allocated
    | None => allocated
    end in
  if bool_decide (ModelInstance.worker_name model_instance ≠ Some worker_name)
  then allocated
  else aggregate_computed_resource_claim_allocated allocated
         (ModelInstance.computed_resource_claim model_instance).

(** [for i, device in enumerate(status.gpu_devices)]: the devices as
    left by the loop, and the exception that stopped it, if any. *)
Fixpoint inject_vram (vram : gmap Z Z) (devices : list GPUDeviceInfo.t)
    : list GPUDeviceInfo.t * option exn :=
  match devices with
  | [] => ([], None)
  | device :: rest =>
      let value :=
        match vram !! GPUDeviceInfo.index device with
        | Some v => v
        | None => 0
        end in
      match GPUDeviceInfo.memory device with
      | None => (device :: rest, Some AttributeError)
      | Some m =>
          let device' :=
            GPUDeviceInfo.set_memory
              (Some (MemoryInfo.set_allocated (Some value) m)) device in
          let '(rest', e) := inject_vram vram rest in
          (device' :: rest', e)
      end
  end.

(** [self._clientset.model_instances.list()]; without a client set
    the attribute access on [None] raises. *)
Definition list_model_instances (self : t) : Outcome (list ModelInstance.t) :=
  match _clientset self with
  | Some clientset => ClientSet.model_instances_list clientset
  | None => Raised AttributeError
  end.

(** The accumulator after the loop over [model_instances.items]. *)
Definition accumulate (worker_name : string) (items : list ModelInstance.t)
    : Allocated.t :=
  foldl (aggregate_model_instance worker_name) (Allocated.Build 0 ∅) items.

Definition _inject_allocated_resource (self : t) (status : WorkerStatus.t)
    : WorkerStatus.t :=
  match list_model_instances self with
  | Raised _ => status
  | Returned items =>
      let allocated := accumulate (_worker_name self) items in
      let status :=
        match WorkerStatus.memory status with
        | Some m =>
            WorkerStatus.set_memory
              (Some (MemoryInfo.set_allocated
                       (Some (Allocated.ram allocated)) m)) status
        | None => status
        end in
      match WorkerStatus.gpu_devices status with
      | Some devices =>
          WorkerStatus.set_gpu_devices
            (Some (inject_vram (Allocated.vram allocated) devices).1)
            status
      | None => status
      end
  end.

(** [rps_server[gpu_index] = RPCServer(pid=..., port=..., gpu_index=...)]
    for every entry of [server_processes]. *)
Definition rps_server (server_processes : gmap Z RPCServerProcess.t)
    : gmap Z RPCServer.t :=
  map_imap
    (fun gpu_index process =>
       Some (RPCServer.Build
               (Process.pid (RPCServerProcess.process process))
               (RPCServerProcess.port process) gpu_index))
    server_processes.

Definition collect (self : t) (initial : bool) : Outcome Worker.t :=
  let status := WorkerStatus.empty in
  let state_message : option string := None in
  let status :=
    match DetectorFactory.detect_system_info (_detector_factory self) with
    | Returned system_info => WorkerStatus.set_system_info system_info status
    | Raised _ => status
    end in
  let '(status, state_message) :=
    if negb initial
    then
      match DetectorFactory.detect_gpus (_detector_factory self) with
      | Returned gpu_devices =>
          (WorkerStatus.set_gpu_devices (Some gpu_devices) status,
           state_message)
      | Raised (GPUDetectExepction msg) => (status, Some msg)
      | Raised _ => (status, state_message)
      end
    else (status, state_message) in
  status ← _inject_unified_memory status;
  let status := _inject_computed_filesystem_usage status in
  let status := _inject_allocated_resource self status in
  status ←
    match _worker_manager self with
    | Some worker_manager =>
        server_processes ← WorkerManager.get_rpc_servers worker_manager;
        Returned
          (WorkerStatus.set_rpc_servers
             (Some (rps_server server_processes)) status)
    | None => Returned status
    end;
  let state :=
    if initial || truthy_str state_message then NOT_READY else READY in
  Returned
    (Worker.Build _ (_worker_name self) (_hostname self)
       (_worker_ip self) (_worker_port self) state status state_message
       (match _worker_manager self with
        | Some _ => _worker_uuid self
        | None => None
        end)).
End Methods.
End WorkerStatusCollector.

(** ** The accounting rule in the words of the specification *)

Section Accounting.
(** What one (possibly absent) claim contributes: its RAM scalar, and its
    VRAM scalar for one GPU index; absent parts contribute nothing. *)
Definition claim_ram (claim : option ComputedResourceClaim.t) : Z :=
  match claim with
  | Some c => default 0 (ComputedResourceClaim.ram c)
  | None => 0
  end.

Definition claim_vram (gpu_index : Z)
    (claim : option ComputedResourceClaim.t) : Z :=
  match claim with
  | Some c =>
      match ComputedResourceClaim.vram c with
      | Some m => default 0 (m !! gpu_index)
      | None => 0
      end
  | None => 0
  end.

Definition zsum (l : list Z) : Z := foldr Z.add 0 l.

Definition subordinates (model_instance : ModelInstance.t)
    : list SubordinateWorker.t :=
  match ModelInstance.distributed_servers model_instance with
  | Some ds => default [] (DistributedServers.subordinate_workers ds)
  | None => []
  end.

Variable measure : option ComputedResourceClaim.t -> Z.
Variable worker_name : string.

(** The subordinate role: every subordinate of the instance that names
    this worker. *)
Definition claimed_as_subordinate (model_instance : ModelInstance.t) : Z :=
  zsum
    ((fun sub => measure (SubordinateWorker.computed_resource_claim sub))
       <$> filter
             (fun sub => SubordinateWorker.worker_name sub = Some worker_name)
             (subordinates model_instance)).

(** The primary role: the instance's own claim when this worker owns it. *)
Definition claimed_as_primary (model_instance : ModelInstance.t) : Z :=
  if decide (ModelInstance.worker_name model_instance = Some worker_name)
  then measure (ModelInstance.computed_resource_claim model_instance)
  else 0.

(** Both roles, counted independently, over all instances. *)
Definition claimed_total (items : list ModelInstance.t) : Z :=
  zsum
    ((fun model_instance =>
        claimed_as_subordinate model_instance
        + claimed_as_primary model_instance) <$> items).
End Accounting.

Definition spec_allocated_ram (worker_name : string)
    (items : list ModelInstance.t) : Z :=
  claimed_total claim_ram worker_name items.

Definition spec_allocated_vram (worker_name : string)
    (items : list ModelInstance.t) (gpu_index : Z) : Z :=
  claimed_total (claim_vram gpu_index) worker_name items.

Import WorkerStatusCollector.

(** The VRAM the items of one claim add for a GPU index. *)
Definition items_vram (gpu_index : Z) (items : list (Z * Z)) : Z :=
  zsum ((fun item => if decide (item.1 = gpu_index) then item.2 else 0)
          <$> items).

(** ** Auxiliary notions used to state the properties *)

#[global] Instance Outcome_fmap : FMap Outcome := fun _ _ f c =>
  match c with
  | Returned a => Returned (f a)
  | Raised e => Raised e
  end.

(** A mount point all of whose four counts are set. *)
Definition complete (mountpoint : MountPoint.t) : Prop :=
  is_Some (MountPoint.total mountpoint)
  /\ is_Some (MountPoint.used mountpoint)
  /\ is_Some (MountPoint.free mountpoint)
  /\ is_Some (MountPoint.available mountpoint).

(** The sum of one count over a list of mount points. *)
Definition sum_count (count : MountPoint.t -> option Z)
    (filesystem : list MountPoint.t) : Z :=
  zsum ((fun mountpoint => default 0 (count mountpoint)) <$> filesystem).

(** The entry named "computed", mounted at "/", that carries the four sums. *)
Definition computed_entry (filesystem : list MountPoint.t) : MountPoint.t :=
  MountPoint.Build "computed" "/"
    (Some (sum_count MountPoint.total filesystem))
    (Some (sum_count MountPoint.used filesystem))
    (Some (sum_count MountPoint.free filesystem))
    (Some (sum_count MountPoint.available filesystem)).

(** A status with every [allocated] field blanked: what is left is all
    that the allocated-resource step may not touch. *)
Definition forget_allocated_device (device : GPUDeviceInfo.t) : GPUDeviceInfo.t :=
  GPUDeviceInfo.set_memory
    (MemoryInfo.set_allocated None <$> GPUDeviceInfo.memory device) device.

Definition forget_allocated `{DetectorSchema} (status : WorkerStatus.t)
    : WorkerStatus.t :=
  WorkerStatus.set_gpu_devices
    ((fun devices : list GPUDeviceInfo.t => forget_allocated_device <$> devices)
       <$> WorkerStatus.gpu_devices status)
    (WorkerStatus.set_memory
       (MemoryInfo.set_allocated None <$> WorkerStatus.memory status) status).

(** Records with the uptime blanked: the one field of the detector's answer
    that changes from call to call on an otherwise unchanged machine. *)
Definition forget_uptime_system_info `{DetectorSchema} (si : SystemInfo.t)
    : SystemInfo.t :=
  SystemInfo.Build _ (SystemInfo.cpu si) (SystemInfo.memory si)
    (SystemInfo.swap si) (SystemInfo.filesystem si) (SystemInfo.os si)
    (SystemInfo.kernel si) None.

Definition forget_uptime_status `{DetectorSchema} (status : WorkerStatus.t)
    : WorkerStatus.t :=
  WorkerStatus.Build _ (WorkerStatus.cpu status) (WorkerStatus.memory status)
    (WorkerStatus.swap status) (WorkerStatus.filesystem status)
    (WorkerStatus.os status) (WorkerStatus.kernel status) None
    (WorkerStatus.gpu_devices status) (WorkerStatus.rpc_servers status).

Definition forget_uptime_worker `{DetectorSchema} (worker : Worker.t)
    : Worker.t :=
  Worker.Build _ (Worker.name worker) (Worker.hostname worker)
    (Worker.ip worker) (Worker.port worker) (Worker.state worker)
    (forget_uptime_status (Worker.status worker))
    (Worker.state_message worker) (Worker.worker_uuid worker).

Definition forget_uptime_collector `{DetectorSchema} (self : WorkerStatusCollector.t)
    : WorkerStatusCollector.t :=
  WorkerStatusCollector.Build _ (_worker_name self) (_hostname self)
    (_worker_ip self) (_worker_port self) (_clientset self)
    (_worker_manager self)
    (DetectorFactory.Build _
       (forget_uptime_system_info
          <$> DetectorFactory.detect_system_info (_detector_factory self))
       (DetectorFactory.detect_gpus (_detector_factory self))).

(** The GPU-detection failure that [collect] met, if any: detection is not
    attempted on the initial snapshot. *)
Definition gpu_detection_failure `{DetectorSchema}
    (self : WorkerStatusCollector.t) (initial : bool) : option string :=
  if initial then None
  else
    match DetectorFactory.detect_gpus (_detector_factory self) with
    | Raised (GPUDetectExepction msg) => Some msg
    | _ => None
    end.

(** The two steps of [collect] that no handler guards. *)
Definition rpc_enumeration_returns `{DetectorSchema}
    (self : WorkerStatusCollector.t) : Prop :=
  forall worker_manager, _worker_manager self = Some worker_manager ->
    returns (WorkerManager.get_rpc_servers worker_manager).

Definition first_device_has_memory `{DetectorSchema}
    (self : WorkerStatusCollector.t) (initial : bool) : Prop :=
  initial = false ->
  forall device rest,
    DetectorFactory.detect_gpus (_detector_factory self)
    = Returned (device :: rest) ->
    is_Some (GPUDeviceInfo.memory device).

(** The status after the two detection steps of [collect]. *)
Definition detected_status `{DetectorSchema}
    (self : WorkerStatusCollector.t) (initial : bool) : WorkerStatus.t :=
  let status :=
    match DetectorFactory.detect_system_info (_detector_factory self) with
    | Returned system_info =>
        WorkerStatus.set_system_info system_info WorkerStatus.empty
    | Raised _ => WorkerStatus.empty
    end in
  if initial then status
  else
    match DetectorFactory.detect_gpus (_detector_factory self) with
    | Returned gpu_devices =>
        WorkerStatus.set_gpu_devices (Some gpu_devices) status
    | Raised _ => status
    end.

(** The relay-server step of [collect]. *)
Definition enumerate_rpc_servers `{DetectorSchema}
    (self : WorkerStatusCollector.t) (status : WorkerStatus.t)
    : Outcome WorkerStatus.t :=
  match _worker_manager self with
  | Some worker_manager =>
      server_processes ← WorkerManager.get_rpc_servers worker_manager;
      Returned
        (WorkerStatus.set_rpc_servers (Some (rps_server server_processes))
           status)
  | None => Returned status
  end.

(** The same collector over a detector whose GPU probe behaves otherwise. *)
Definition with_detect_gpus `{DetectorSchema}
    (detect_gpus : Outcome (list GPUDeviceInfo.t))
    (self : WorkerStatusCollector.t) : WorkerStatusCollector.t :=
  WorkerStatusCollector.Build _ (_worker_name self) (_hostname self)
    (_worker_ip self) (_worker_port self) (_clientset self)
    (_worker_manager self)
    (DetectorFactory.Build _
       (DetectorFactory.detect_system_info (_detector_factory self))
       detect_gpus).

(** ** Sample inputs *)

Module Sample.
(** Payloads for running the model: plain numbers and strings. *)
Definition plain_schema : DetectorSchema :=
  {| CPUInfo := Z; SwapInfo := Z; KernelInfo := string; UptimeInfo := Z |}.

(** The two instances of the specification's worked example: "worker-A"
    owns the first and is a subordinate of the second. *)
Definition owned_instance : ModelInstance.t :=
  ModelInstance.Build (Some "worker-A")
    (Some (ComputedResourceClaim.Build (Some 10) (Some {[0 := 4]}))) None.

Definition joined_instance : ModelInstance.t :=
  ModelInstance.Build (Some "worker-B") None
    (Some (DistributedServers.Build
             (Some [SubordinateWorker.Build (Some "worker-A")
                      (Some (ComputedResourceClaim.Build (Some 5)
                               (Some (<[0 := 1]> {[1 := 2]}))))]))).

Definition instances : list ModelInstance.t := [owned_instance; joined_instance].

(** An instance that "worker-A" owns and also joins as a subordinate. *)
Definition double_role_instance : ModelInstance.t :=
  ModelInstance.Build (Some "worker-A")
    (Some (ComputedResourceClaim.Build (Some 10) (Some {[0 := 4]})))
    (Some (DistributedServers.Build
             (Some [SubordinateWorker.Build (Some "worker-A")
                      (Some (ComputedResourceClaim.Build (Some 5)
                               (Some {[0 := 1]})));
                    SubordinateWorker.Build (Some "worker-B")
                      (Some (ComputedResourceClaim.Build (Some 7)
                               (Some {[0 := 8]})))]))).

Definition host_memory : MemoryInfo.t :=
  MemoryInfo.Build (Some 64) (Some 48) false None.

Definition device (index : Z) : GPUDeviceInfo.t :=
  GPUDeviceInfo.Build "gpu" index
    (Some (MemoryInfo.Build (Some 16) (Some 16) true None)).

(** A device that reports no memory record. *)
Definition bare_device (index : Z) : GPUDeviceInfo.t :=
  GPUDeviceInfo.Build "gpu" index None.

Definition drive (name : string) (total used : Z) : MountPoint.t :=
  MountPoint.Build name name (Some total) (Some used) (Some (total - used))
    (Some (total - used)).

Definition system_info (os_name : string) (filesystem : list MountPoint.t)
    (uptime : Z) : @SystemInfo.t plain_schema :=
  SystemInfo.Build plain_schema (Some 8) (Some host_memory) (Some 2)
    (Some filesystem) (Some (OperatingSystemInfo.Build os_name "1"))
    (Some "kernel") (Some uptime).

Definition manager : WorkerManager.t :=
  WorkerManager.Build "uuid-1"
    (Returned {[0 := RPCServerProcess.Build (Process.Build 4242) 50051]}).

Definition failing_manager : WorkerManager.t :=
  WorkerManager.Build "uuid-1" (Raised (OtherException "no process table")).

Definition collector (worker_manager : option WorkerManager.t)
    (detect_system_info : Outcome (@SystemInfo.t plain_schema))
    (detect_gpus : Outcome (list GPUDeviceInfo.t))
    : @WorkerStatusCollector.t plain_schema :=
  WorkerStatusCollector.Build plain_schema "worker-A" "host-a" "10.0.0.1" 10150
    (Some (ClientSet.Build (Returned instances))) worker_manager
    (DetectorFactory.Build plain_schema detect_system_info detect_gpus).

Definition linux : Outcome (@SystemInfo.t plain_schema) :=
  Returned (system_info "Ubuntu" [drive "/" 100 40] 3600).

(** A status as [collect] hands it to the injection steps. *)
Definition status (os_name : string) (filesystem : list MountPoint.t)
    (devices : list GPUDeviceInfo.t) : @WorkerStatus.t plain_schema :=
  WorkerStatus.set_gpu_devices (Some devices)
    (WorkerStatus.set_system_info (system_info os_name filesystem 3600)
       WorkerStatus.empty).
End Sample.

(** ** Construction *)

(** Modelled from the spec: the detector override [Custom(...)], given by
    the keyword arguments it is built with. *)
Module Custom.
Record t `{DetectorSchema} : Type := Build {
  gpu_devices : option (list GPUDeviceInfo.t);
  system_info : option SystemInfo.t
}.
End Custom.

(** Modelled from the spec: a call [DetectorFactory(...)], given by the
    keyword arguments [__init__] passes; an argument left out is [None]. *)
Module DetectorFactoryCall.
Record t `{DetectorSchema} : Type := Build {
  device : option string;
  gpu_detectors : option (gmap string (list Custom.t));
  system_info_detector : option Custom.t
}.
End DetectorFactoryCall.

(** What [__init__] leaves on [self]. *)
Module Constructed.
Record t `{DetectorSchema} : Type := Build {
  _worker_name : string;
  _hostname : string;
  _worker_ip : string;
  _worker_port : Z;
  _clientset : option ClientSet.t;
  _worker_manager : option WorkerManager.t;
  _worker_uuid : option string;
  _detector_factory : DetectorFactoryCall.t
}.
End Constructed.

(** Truthiness of an optional object that defines neither [__bool__] nor
    [__len__]: true when it is not [None]. *)
Definition truthy_object {A} (o : option A) : bool :=
  match o with
  | Some _ => true
  | None => false
  end.

(** [WorkerStatusCollector.__init__]; [gethostname] is the answer of
    [socket.gethostname()].  The overrides are tested by truthiness: a
    list is true when it is not empty, a system-info record when it is
    given. *)
Definition __init__ `{DetectorSchema} (gethostname : string)
    (worker_ip worker_name : string) (worker_port : Z)
    (clientset : option ClientSet.t) (worker_manager : option WorkerManager.t)
    (gpu_devices : option (list GPUDeviceInfo.t))
    (system_info : option SystemInfo.t) : Constructed.t :=
  let _worker_uuid :=
    if truthy_object worker_manager
    then WorkerManager.get_worker_uuid <$> worker_manager
    else None in
  let _detector_factory :=
    if truthy_list gpu_devices && truthy_object system_info
    then
      DetectorFactoryCall.Build _ (Some "custom")
        (Some {["custom" := [Custom.Build _ gpu_devices None]]})
        (Some (Custom.Build _ None system_info))
    else if truthy_list gpu_devices
    then
      DetectorFactoryCall.Build _ (Some "custom")
        (Some {["custom" := [Custom.Build _ gpu_devices None]]}) None
    else if truthy_object system_info
    then
      DetectorFactoryCall.Build _ None None
        (Some (Custom.Build _ None system_info))
    else DetectorFactoryCall.Build _ None None None in
  Constructed.Build _ worker_name gethostname worker_ip worker_port clientset
    worker_manager _worker_uuid _detector_factory.

(** ** Further notions used to state properties *)

(** The VRAM entry a (possibly absent) claim holds for a GPU index. *)
Definition claim_vram_entry (gpu_index : Z)
    (claim : option ComputedResourceClaim.t) : option Z :=
  match claim with
  | Some c =>
      match ComputedResourceClaim.vram c with
      | Some m => m !! gpu_index
      | None => None
      end
  | None => None
  end.

(** The claims one turn of the instance loop aggregates, in order: the
    claims of the subordinates that name the worker, then the instance's
    own claim when the worker owns it. *)
Definition claims_for (worker_name : string) (model_instance : ModelInstance.t)
    : list (option ComputedResourceClaim.t) :=
  (SubordinateWorker.computed_resource_claim
     <$> filter (fun sub => SubordinateWorker.worker_name sub = Some worker_name)
           (subordinates model_instance))
  ++ (if decide (ModelInstance.worker_name model_instance = Some worker_name)
      then [ModelInstance.computed_resource_claim model_instance]
      else [])%list.

(** An instance names the worker as its owner or as one of its
    subordinates. *)
Definition mentions (worker_name : string) (model_instance : ModelInstance.t)
    : Prop :=
  ModelInstance.worker_name model_instance = Some worker_name
  \/ Exists (fun sub => SubordinateWorker.worker_name sub = Some worker_name)
       (subordinates model_instance).

#[global] Instance mentions_dec (worker_name : string)
    (model_instance : ModelInstance.t)
    : Decision (mentions worker_name model_instance).
Proof. unfold mentions. apply _. Defined.

(** A device with [value] as allocated VRAM, when it has a memory record. *)
Definition with_allocated (value : Z) (device : GPUDeviceInfo.t)
    : GPUDeviceInfo.t :=
  match GPUDeviceInfo.memory device with
  | Some m =>
      GPUDeviceInfo.set_memory
        (Some (MemoryInfo.set_allocated (Some value) m)) device
  | None => device
  end.

(** The number of devices before the first one without a memory record. *)
Fixpoint leading_with_memory (devices : list GPUDeviceInfo.t) : nat :=
  match devices with
  | [] => 0
  | device :: rest =>
      match GPUDeviceInfo.memory device with
      | Some _ => S (leading_with_memory rest)
      | None => 0
      end
  end.

(** GPU detection is attempted and answers with a list whose first device
    has no memory record. *)
Definition first_device_bare `{DetectorSchema}
    (self : WorkerStatusCollector.t) (initial : bool) : Prop :=
  initial = false
  /\ exists device rest,
       DetectorFactory.detect_gpus (_detector_factory self)
       = Returned (device :: rest)
       /\ GPUDeviceInfo.memory device = None.

(** The unified-memory flag [collect] derives: the first detected device's,
    [false] without a detected device. *)
Definition derived_unified_memory `{DetectorSchema}
    (self : WorkerStatusCollector.t) (initial : bool) : bool :=
  if initial then false
  else
    match DetectorFactory.detect_gpus (_detector_factory self) with
    | Returned (device :: _) =>
        match GPUDeviceInfo.memory device with
        | Some m => MemoryInfo.is_unified_memory m
        | None => false
        end
    | _ => false
    end.

(** A mount point with every count doubled. *)
Definition doubled (mountpoint : MountPoint.t) : MountPoint.t :=
  MountPoint.Build (MountPoint.name mountpoint)
    (MountPoint.mount_point mountpoint)
    (Z.mul 2 <$> MountPoint.total mountpoint)
    (Z.mul 2 <$> MountPoint.used mountpoint)
    (Z.mul 2 <$> MountPoint.free mountpoint)
    (Z.mul 2 <$> MountPoint.available mountpoint).

(** ** Calls that share the detector's objects *)

(** Modelled from the spec: a detector built from the fixed overrides of
    [__init__] (static configuration instead of live probing) hands out,
    on every call, the very objects it was built with.  [collect] stores
    them on the status without copying ([status.memory =
    system_info.memory], [status.filesystem = system_info.filesystem],
    [status.gpu_devices = gpu_devices]) and the three injection steps then
    write to them in place.  [after_collect self initial] is the collector
    as one call leaves it: the detector's answers carry what the
    injections wrote to the memory record, the filesystem list and the
    devices.  Nothing is written when the unified-memory step raises,
    since it raises before its write; what was written stays written when
    the relay-server step raises afterwards. *)
Definition after_collect `{DetectorSchema} (self : WorkerStatusCollector.t)
    (initial : bool) : WorkerStatusCollector.t :=
  match _inject_unified_memory (detected_status self initial) with
  | Raised _ => self
  | Returned unified =>
      let status :=
        _inject_allocated_resource self
          (_inject_computed_filesystem_usage unified) in
      WorkerStatusCollector.Build _ (_worker_name self) (_hostname self)
        (_worker_ip self) (_worker_port self) (_clientset self)
        (_worker_manager self)
        (DetectorFactory.Build _
           match DetectorFactory.detect_system_info (_detector_factory self) with
           | Returned system_info =>
               Returned
                 (SystemInfo.Build _ (SystemInfo.cpu system_info)
                    (WorkerStatus.memory status) (SystemInfo.swap system_info)
                    (WorkerStatus.filesystem status)
                    (SystemInfo.os system_info) (SystemInfo.kernel system_info)
                    (SystemInfo.uptime system_info))
           | Raised e => Raised e
           end
           (if initial
            then DetectorFactory.detect_gpus (_detector_factory self)
            else
              match DetectorFactory.detect_gpus (_detector_factory self),
                    WorkerStatus.gpu_devices status with
              | Returned _, Some devices => Returned devices
              | answer, _ => answer
              end))
  end.

(** Two calls in a row on one collector whose detector shares its objects:
    the outcome of each call, the second on what the first left, each
    record read as it is when its call returns. *)
Definition collect_twice `{DetectorSchema} (self : WorkerStatusCollector.t)
    (initial : bool) : Outcome Worker.t * Outcome Worker.t :=
  (collect self initial, collect (after_collect self initial) initial).

(** ** The aggregation loop computes the accounting rule *)

Lemma zsum_fmap_cons {A} (f : A -> Z) (x : A) (l : list A) :
  zsum (f <$> x :: l) = f x + zsum (f <$> l).
Proof. reflexivity. Qed.

Lemma zsum_fmap_nil {A} (f : A -> Z) : zsum (f <$> []) = 0.
Proof. reflexivity. Qed.

Section FoldClaims.
Lemma items_vram_cons gpu_index k v items :
  items_vram gpu_index ((k, v) :: items)
  = (if decide (k = gpu_index) then v else 0) + items_vram gpu_index items.
Proof. reflexivity. Qed.

Lemma foldl_add_vram items : forall (acc : gmap Z Z) (gpu_index : Z),
  default 0 (foldl add_vram acc items !! gpu_index)
  = default 0 (acc !! gpu_index) + items_vram gpu_index items.
Proof.
  induction items as [|[k v] items IH]; intros acc gpu_index.
  - unfold items_vram; simpl. lia.
  - simpl foldl. rewrite IH, items_vram_cons. unfold add_vram; simpl.
    destruct (decide (k = gpu_index)) as [->|Hne].
    + rewrite lookup_insert_eq. simpl. lia.
    + rewrite lookup_insert_ne by done. lia.
Qed.

Lemma items_vram_absent items gpu_index :
  gpu_index ∉ items.*1 -> items_vram gpu_index items = 0.
Proof.
  induction items as [|[k v] items IH]; intros Hnotin; [done|].
  simpl in Hnotin. apply not_elem_of_cons in Hnotin as [Hne Hnotin].
  rewrite items_vram_cons, decide_False by done. rewrite IH by done. lia.
Qed.

Lemma items_vram_present items gpu_index v :
  NoDup items.*1 -> (gpu_index, v) ∈ items -> items_vram gpu_index items = v.
Proof.
  induction items as [|[k w] items IH]; intros Hnd Hin.
  - by apply elem_of_nil in Hin.
  - simpl in Hnd. apply NoDup_cons in Hnd as [Hk Hnd].
    rewrite items_vram_cons.
    apply elem_of_cons in Hin as [Heq|Hin].
    + injection Heq as <- <-. rewrite decide_True by done.
      rewrite items_vram_absent by done. lia.
    + rewrite decide_False.
      * rewrite IH by done. lia.
      * intros ->. apply Hk. apply list_elem_of_fmap. by exists (gpu_index, v).
Qed.

(** The items of a dict add, for every index, the value stored there. *)
Lemma items_vram_map_to_list (m : gmap Z Z) gpu_index :
  items_vram gpu_index (map_to_list m) = default 0 (m !! gpu_index).
Proof.
  destruct (m !! gpu_index) as [v|] eqn:Hm; simpl.
  - apply items_vram_present; [apply NoDup_fst_map_to_list|].
    by apply elem_of_map_to_list.
  - apply items_vram_absent. intros Hin.
    apply list_elem_of_fmap in Hin as [[k v] [-> Hin]].
    apply elem_of_map_to_list in Hin. simpl in Hm. congruence.
Qed.

Lemma aggregate_ram allocated claim :
  Allocated.ram (aggregate_computed_resource_claim_allocated allocated claim)
  = Allocated.ram allocated + claim_ram claim.
Proof.
  destruct claim as [[[ram|] vram]|]; simpl; try lia.
  destruct (Z.eqb_spec ram 0) as [->|]; simpl; lia.
Qed.

Lemma aggregate_vram allocated claim gpu_index :
  default 0
    (Allocated.vram (aggregate_computed_resource_claim_allocated allocated claim)
       !! gpu_index)
  = default 0 (Allocated.vram allocated !! gpu_index)
    + claim_vram gpu_index claim.
Proof.
  destruct claim as [[ram [m|]]|]; simpl; try lia.
  - rewrite foldl_add_vram, items_vram_map_to_list. done.
  - rewrite map_to_list_empty. simpl. lia.
Qed.
End FoldClaims.

Section FoldInstances.
(** Any quantity read off the accumulator that grows by [measure claim]
    with every aggregated claim ends at the specification's total. *)
Variable reading : Allocated.t -> Z.
Variable measure : option ComputedResourceClaim.t -> Z.
Hypothesis reading_step : forall allocated claim,
  reading (aggregate_computed_resource_claim_allocated allocated claim)
  = reading allocated + measure claim.
Variable worker_name : string.

Lemma foldl_aggregate_subworker subs : forall allocated,
  reading (foldl (aggregate_subworker worker_name) allocated subs)
  = reading allocated
    + zsum ((fun sub => measure (SubordinateWorker.computed_resource_claim sub))
              <$> filter
                    (fun sub => SubordinateWorker.worker_name sub
                                = Some worker_name) subs).
Proof.
  induction subs as [|sub subs IH]; intros allocated.
  - rewrite filter_nil, zsum_fmap_nil. simpl. lia.
  - simpl foldl. rewrite IH. unfold aggregate_subworker. rewrite filter_cons.
    destruct (decide (SubordinateWorker.worker_name sub = Some worker_name))
      as [Heq|Hne].
    + rewrite bool_decide_eq_false_2 by (intros Hn; by apply Hn).
      rewrite reading_step, zsum_fmap_cons. lia.
    + rewrite bool_decide_eq_true_2 by done. lia.
Qed.

Lemma aggregate_model_instance_reading allocated model_instance :
  reading (aggregate_model_instance worker_name allocated model_instance)
  = reading allocated
    + (claimed_as_subordinate measure worker_name model_instance
       + claimed_as_primary measure worker_name model_instance).
Proof.
  unfold aggregate_model_instance, claimed_as_subordinate, claimed_as_primary,
    subordinates.
  set (after_subs := match ModelInstance.distributed_servers model_instance with
                     | Some ds => _ | None => _ end).
  assert (Hsubs : reading after_subs
            = reading allocated
              + zsum ((fun sub =>
                         measure (SubordinateWorker.computed_resource_claim sub))
                        <$> filter
                              (fun sub => SubordinateWorker.worker_name sub
                                          = Some worker_name)
                              match ModelInstance.distributed_servers
                                      model_instance with
                              | Some ds =>
                                  default []
                                    (DistributedServers.subordinate_workers ds)
                              | None => []
                              end)).
  { subst after_subs.
    destruct (ModelInstance.distributed_servers model_instance) as [[subs]|];
      [|rewrite filter_nil, zsum_fmap_nil; lia].
    destruct subs as [[|sub subs]|]; simpl truthy_list; cbv iota;
      simpl default; simpl DistributedServers.subordinate_workers.
    - rewrite filter_nil, zsum_fmap_nil. lia.
    - apply (foldl_aggregate_subworker (sub :: subs)).
    - rewrite filter_nil, zsum_fmap_nil. lia. }
  destruct (decide (ModelInstance.worker_name model_instance = Some worker_name))
    as [Heq|Hne].
  - rewrite bool_decide_eq_false_2 by (intros Hn; by apply Hn).
    rewrite reading_step, Hsubs. lia.
  - rewrite bool_decide_eq_true_2 by done. rewrite Hsubs. lia.
Qed.

Lemma foldl_aggregate_model_instance items : forall allocated,
  reading (foldl (aggregate_model_instance worker_name) allocated items)
  = reading allocated + claimed_total measure worker_name items.
Proof.
  induction items as [|model_instance items IH]; intros allocated.
  - unfold claimed_total. rewrite zsum_fmap_nil. simpl. lia.
  - simpl foldl. rewrite IH, aggregate_model_instance_reading.
    unfold claimed_total. rewrite zsum_fmap_cons. lia.
Qed.
End FoldInstances.

Lemma accumulate_ram worker_name items :
  Allocated.ram (accumulate worker_name items)
  = spec_allocated_ram worker_name items.
Proof.
  unfold accumulate, spec_allocated_ram.
  rewrite (foldl_aggregate_model_instance Allocated.ram claim_ram aggregate_ram).
  simpl. lia.
Qed.

Lemma accumulate_vram worker_name items gpu_index :
  default 0 (Allocated.vram (accumulate worker_name items) !! gpu_index)
  = spec_allocated_vram worker_name items gpu_index.
Proof.
  unfold accumulate, spec_allocated_vram.
  rewrite (foldl_aggregate_model_instance
             (fun allocated => default 0 (Allocated.vram allocated !! gpu_index))
             (claim_vram gpu_index)
             (fun allocated claim => aggregate_vram allocated claim gpu_index)).
  simpl. rewrite lookup_empty. simpl. lia.
Qed.

(** ** The allocated-resource step *)

Section AllocatedResource.
Context `{DetectorSchema}.

Lemma inject_vram_length vram (devices : list GPUDeviceInfo.t) :
  length (inject_vram vram devices).1 = length devices.
Proof.
  induction devices as [|device devices IH]; [done|]. simpl.
  destruct (GPUDeviceInfo.memory device); [|done].
  destruct (inject_vram vram devices) as [rest' e]. simpl in *. by rewrite IH.
Qed.

(** A device is written when every device before it had a memory record. *)
Lemma inject_vram_lookup vram (devices : list GPUDeviceInfo.t) :
  forall (i : nat) device m,
    devices !! i = Some device ->
    GPUDeviceInfo.memory device = Some m ->
    Forall (fun d => is_Some (GPUDeviceInfo.memory d)) (take i devices) ->
    (inject_vram vram devices).1 !! i
    = Some (GPUDeviceInfo.set_memory
              (Some (MemoryInfo.set_allocated
                       (Some (default 0 (vram !! GPUDeviceInfo.index device))) m))
              device).
Proof.
  induction devices as [|d devices IH]; intros i device m Hi Hm Hbefore.
  - by rewrite lookup_nil in Hi.
  - destruct i as [|i]; simpl in Hi.
    + injection Hi as ->. simpl. rewrite Hm.
      destruct (inject_vram vram devices) as [rest' e]. done.
    + simpl in Hbefore. apply Forall_cons in Hbefore as [[md Hd] Hbefore].
      simpl. rewrite Hd.
      specialize (IH i device m Hi Hm Hbefore).
      destruct (inject_vram vram devices) as [rest' e]. done.
Qed.

(** Blanking the [allocated] fields hides everything the device loop did,
    wherever it stopped. *)
Lemma inject_vram_forget vram (devices : list GPUDeviceInfo.t) :
  forget_allocated_device <$> (inject_vram vram devices).1
  = forget_allocated_device <$> devices.
Proof.
  induction devices as [|device devices IH]; [done|]. simpl.
  destruct (GPUDeviceInfo.memory device) as [m|] eqn:Hm; [|done].
  destruct (inject_vram vram devices) as [rest' e]. simpl in *.
  f_equal; [|done].
  destruct device as [name index memory]. simpl in Hm. subst memory. done.
Qed.

Lemma forget_allocated_device_index (devices devices' : list GPUDeviceInfo.t) :
  forget_allocated_device <$> devices' = forget_allocated_device <$> devices ->
  GPUDeviceInfo.index <$> devices' = GPUDeviceInfo.index <$> devices.
Proof.
  intros Heq.
  assert (Hindex : forall l : list GPUDeviceInfo.t,
            GPUDeviceInfo.index <$> l
            = GPUDeviceInfo.index <$> (forget_allocated_device <$> l)).
  { intros l. rewrite <- list_fmap_compose. done. }
  by rewrite (Hindex devices'), (Hindex devices), Heq.
Qed.

(** C3.  When the cluster client answers with [items], the memory record of
    the status, if there is one, gets as [allocated] the total RAM claimed
    on this worker: over all instances, the RAM of every subordinate claim
    that names this worker plus the RAM of the instance's own claim when
    this worker owns it, absent claims and absent scalars counting for
    nothing.  A status without a memory record stays without one. *)
Theorem allocated_ram_total (self : WorkerStatusCollector.t)
    (status : WorkerStatus.t) (items : list ModelInstance.t) :
  list_model_instances self = Returned items ->
  WorkerStatus.memory (_inject_allocated_resource self status)
  = MemoryInfo.set_allocated
      (Some (spec_allocated_ram (_worker_name self) items))
    <$> WorkerStatus.memory status.
Proof.
  intros Hlist. unfold _inject_allocated_resource. rewrite Hlist.
  rewrite accumulate_ram.
  destruct status as [cpu memory swap filesystem os kernel uptime gpu rpc].
  by destruct memory as [m|], gpu as [devices|].
Qed.

(** From a device without a memory record on, the device loop has written
    nothing. *)
Lemma inject_vram_untouched vram (devices : list GPUDeviceInfo.t) :
  forall (j : nat) bare,
    devices !! j = Some bare ->
    GPUDeviceInfo.memory bare = None ->
    forall i : nat, (j <= i)%nat ->
      (inject_vram vram devices).1 !! i = devices !! i.
Proof.
  induction devices as [|d devices IH]; intros j bare Hj Hbare i Hle.
  - done.
  - simpl. destruct (GPUDeviceInfo.memory d) as [md|] eqn:Hd; [|done].
    destruct j as [|j]; simpl in Hj; [congruence|].
    destruct i as [|i]; [lia|].
    specialize (IH j bare Hj Hbare i ltac:(lia)).
    destruct (inject_vram vram devices) as [rest' e]. done.
Qed.

(** C4, as the code has it.  When the cluster client answers with [items]
    and the status has a device list, the list keeps its length, and:
    a device that has a memory record, and before which every device has
    one, is found at its place with the same name and index and with a
    memory record whose [allocated] reads the total VRAM claimed on this
    worker for the device's index (same instances and roles as for RAM),
    which is zero, not an unset field, when the accumulator has no entry
    for the index, the other fields of the memory record being as before;
    from a device without a memory record on, every device is as it was. *)
Theorem allocated_vram_per_device (self : WorkerStatusCollector.t)
    (status : WorkerStatus.t) (items : list ModelInstance.t)
    (devices : list GPUDeviceInfo.t) :
  list_model_instances self = Returned items ->
  WorkerStatus.gpu_devices status = Some devices ->
  exists devices',
    WorkerStatus.gpu_devices (_inject_allocated_resource self status)
    = Some devices'
    /\ length devices' = length devices
    /\ (forall (i : nat) device m,
          devices !! i = Some device ->
          GPUDeviceInfo.memory device = Some m ->
          Forall (fun d => is_Some (GPUDeviceInfo.memory d)) (take i devices) ->
          exists device' m',
            devices' !! i = Some device'
            /\ GPUDeviceInfo.name device' = GPUDeviceInfo.name device
            /\ GPUDeviceInfo.index device' = GPUDeviceInfo.index device
            /\ GPUDeviceInfo.memory device' = Some m'
            /\ MemoryInfo.allocated m'
               = Some (spec_allocated_vram (_worker_name self) items
                         (GPUDeviceInfo.index device))
            /\ (Allocated.vram (accumulate (_worker_name self) items)
                  !! GPUDeviceInfo.index device = None ->
                MemoryInfo.allocated m' = Some 0)
            /\ MemoryInfo.total m' = MemoryInfo.total m
            /\ MemoryInfo.free m' = MemoryInfo.free m
            /\ MemoryInfo.is_unified_memory m'
               = MemoryInfo.is_unified_memory m)
    /\ (forall (j : nat) bare,
          devices !! j = Some bare ->
          GPUDeviceInfo.memory bare = None ->
          forall i : nat, (j <= i)%nat -> devices' !! i = devices !! i).
Proof.
  intros Hlist Hdevices.
  set (vram := Allocated.vram (accumulate (_worker_name self) items)).
  exists (inject_vram vram devices).1.
  split; [|split; [|split]].
  - unfold _inject_allocated_resource. rewrite Hlist.
    destruct (WorkerStatus.memory status); simpl; by rewrite Hdevices.
  - apply inject_vram_length.
  - intros i device m Hi Hm Hbefore.
    eexists _, _. split; [by apply inject_vram_lookup|].
    assert (Hwritten : default 0 (vram !! GPUDeviceInfo.index device)
                       = spec_allocated_vram (_worker_name self) items
                           (GPUDeviceInfo.index device))
      by apply accumulate_vram.
    simpl. rewrite Hwritten. repeat split; try done.
    intros Hnone. rewrite <- Hwritten. by rewrite Hnone.
  - apply inject_vram_untouched.
Qed.

(** C10.  Whatever the cluster client does and wherever the device loop
    stops, the allocated-resource step leaves every field of the status as
    it was, except the [allocated] field of the memory record and of the
    devices' memory records: cpu, swap, filesystem, os, kernel, uptime and
    rpc_servers are unchanged, the devices keep their order and indices,
    and the statuses before and after agree once [allocated] is blanked. *)
Theorem inject_allocated_resource_frame (self : WorkerStatusCollector.t)
    (status : WorkerStatus.t) :
  let status' := _inject_allocated_resource self status in
  forget_allocated status' = forget_allocated status
  /\ WorkerStatus.cpu status' = WorkerStatus.cpu status
  /\ WorkerStatus.swap status' = WorkerStatus.swap status
  /\ WorkerStatus.filesystem status' = WorkerStatus.filesystem status
  /\ WorkerStatus.os status' = WorkerStatus.os status
  /\ WorkerStatus.kernel status' = WorkerStatus.kernel status
  /\ WorkerStatus.uptime status' = WorkerStatus.uptime status
  /\ WorkerStatus.rpc_servers status' = WorkerStatus.rpc_servers status
  /\ ((fun devices : list GPUDeviceInfo.t => GPUDeviceInfo.index <$> devices)
        <$> WorkerStatus.gpu_devices status')
     = ((fun devices : list GPUDeviceInfo.t => GPUDeviceInfo.index <$> devices)
          <$> WorkerStatus.gpu_devices status).
Proof.
  unfold _inject_allocated_resource.
  destruct (list_model_instances self) as [items|e]; [|done].
  destruct status as [cpu memory swap filesystem os kernel uptime gpu rpc].
  set (vram := Allocated.vram (accumulate (_worker_name self) items)).
  destruct memory as [m|], gpu as [devices|]; cbn;
    unfold forget_allocated; cbn; repeat split; try done.
  - by rewrite inject_vram_forget.
  - f_equal. apply forget_allocated_device_index, inject_vram_forget.
  - by rewrite inject_vram_forget.
  - f_equal. apply forget_allocated_device_index, inject_vram_forget.
Qed.
End AllocatedResource.

(** The specification's worked example: 10 + 5 of RAM, 4 + 1 of VRAM on
    GPU 0 and 2 on GPU 1, and nothing on GPU 2. *)
Example accumulate_worked_example :
  let allocated := accumulate "worker-A" Sample.instances in
  Allocated.ram allocated = 15
  /\ Allocated.vram allocated !! 0 = Some 5
  /\ Allocated.vram allocated !! 1 = Some 2
  /\ Allocated.vram allocated !! 2 = None.
Proof. vm_compute. done. Qed.

(** Both roles of one instance count: 5 + 10 of RAM and 1 + 4 of VRAM on
    GPU 0; the other worker's subordinate claim does not. *)
Example accumulate_double_role :
  let allocated := accumulate "worker-A" [Sample.double_role_instance] in
  Allocated.ram allocated = 15 /\ Allocated.vram allocated !! 0 = Some 5.
Proof. vm_compute. done. Qed.

(** A device without a memory record stops the device loop: the devices
    before it are written, the ones after it are not. *)
Example inject_vram_stops_at_bare_device :
  inject_vram {[0 := 5; 1 := 2]}
    [Sample.device 0; Sample.bare_device 1; Sample.device 2]
  = ([GPUDeviceInfo.Build "gpu" 0
        (Some (MemoryInfo.Build (Some 16) (Some 16) true (Some 5)));
      Sample.bare_device 1; Sample.device 2],
     Some AttributeError).
Proof. vm_compute. done. Qed.

Lemma allocated_ram_total_witness :
  list_model_instances (Sample.collector None Sample.linux (Returned []))
  = Returned Sample.instances
  /\ WorkerStatus.memory
       (_inject_allocated_resource
          (Sample.collector None Sample.linux (Returned []))
          (Sample.status "Ubuntu" [] [Sample.device 0]))
     = Some (MemoryInfo.Build (Some 64) (Some 48) false (Some 15)).
Proof.
  split; [reflexivity|].
  rewrite (allocated_ram_total
             (Sample.collector None Sample.linux (Returned []))
             (Sample.status "Ubuntu" [] [Sample.device 0])
             Sample.instances eq_refl).
  vm_compute. reflexivity.
Defined.

Lemma allocated_vram_per_device_witness :
  exists devices' first second m1 m2,
    WorkerStatus.gpu_devices
      (_inject_allocated_resource
         (Sample.collector None Sample.linux (Returned []))
         (Sample.status "Ubuntu" []
            [Sample.device 0; Sample.device 2; Sample.bare_device 1;
             Sample.device 1]))
    = Some devices'
    /\ length devices' = 4%nat
    /\ devices' !! 0%nat = Some first
    /\ GPUDeviceInfo.memory first = Some m1
    /\ MemoryInfo.allocated m1 = Some 5
    /\ devices' !! 1%nat = Some second
    /\ GPUDeviceInfo.index second = 2
    /\ GPUDeviceInfo.memory second = Some m2
    /\ MemoryInfo.allocated m2 = Some 0
    /\ devices' !! 3%nat = Some (Sample.device 1).
Proof.
  destruct (allocated_vram_per_device
              (Sample.collector None Sample.linux (Returned []))
              (Sample.status "Ubuntu" []
                 [Sample.device 0; Sample.device 2; Sample.bare_device 1;
                  Sample.device 1])
              Sample.instances
              [Sample.device 0; Sample.device 2; Sample.bare_device 1;
               Sample.device 1]
              eq_refl eq_refl)
    as (devices' & Hdevices & Hlength & Hwritten & Huntouched).
  destruct (Hwritten 0%nat (Sample.device 0)
              (MemoryInfo.Build (Some 16) (Some 16) true None)
              eq_refl eq_refl)
    as (first & m1 & Hfirst & _ & _ & Hm1 & Hallocated1 & _);
    [constructor|].
  destruct (Hwritten 1%nat (Sample.device 2)
              (MemoryInfo.Build (Some 16) (Some 16) true None)
              eq_refl eq_refl)
    as (second & m2 & Hsecond & _ & Hindex & Hm2 & _ & Hzero & _);
    [repeat constructor; eexists; reflexivity|].
  exists devices', first, second, m1, m2.
  split; [exact Hdevices|]. split; [exact Hlength|].
  split; [exact Hfirst|]. split; [exact Hm1|].
  split; [exact Hallocated1|]. split; [exact Hsecond|].
  split; [exact Hindex|]. split; [exact Hm2|].
  split; [exact (Hzero eq_refl)|].
  exact (Huntouched 2%nat (Sample.bare_device 1) eq_refl eq_refl 3%nat
           (le_S _ _ (le_n _))).
Defined.

(** C4 as stated covers every device of the list: a device that comes
    after one without a memory record is not written.  VRAM is claimed for
    its index, and its [allocated] stays unset. *)
Lemma device_after_bare_device_left_unset :
  exists devices' device m,
    WorkerStatus.gpu_devices
      (_inject_allocated_resource
         (Sample.collector None Sample.linux (Returned []))
         (Sample.status "Ubuntu" []
            [Sample.device 0; Sample.bare_device 1; Sample.device 1]))
    = Some devices'
    /\ devices' !! 2%nat = Some device
    /\ GPUDeviceInfo.index device = 1
    /\ GPUDeviceInfo.memory device = Some m
    /\ MemoryInfo.allocated m = None
    /\ spec_allocated_vram "worker-A" Sample.instances 1 = 2.
Proof. eexists _, _, _. vm_compute. repeat split. Qed.

(** ** The computed filesystem entry *)

Section ComputedFilesystem.
Context `{DetectorSchema}.

Lemma sum_count_cons count mountpoint (filesystem : list MountPoint.t) :
  sum_count count (mountpoint :: filesystem)
  = default 0 (count mountpoint) + sum_count count filesystem.
Proof. reflexivity. Qed.

(** On complete entries the loop returns the running sums. *)
Lemma sum_mountpoints_complete (filesystem : list MountPoint.t) :
  forall name mount_point total used free available,
    Forall complete filesystem ->
    sum_mountpoints
      (MountPoint.Build name mount_point (Some total) (Some used) (Some free)
         (Some available)) filesystem
    = Returned
        (MountPoint.Build name mount_point
           (Some (total + sum_count MountPoint.total filesystem))
           (Some (used + sum_count MountPoint.used filesystem))
           (Some (free + sum_count MountPoint.free filesystem))
           (Some (available + sum_count MountPoint.available filesystem))).
Proof.
  induction filesystem as [|mountpoint filesystem IH];
    intros name mount_point total used free available Hall.
  - unfold sum_count. simpl. by rewrite !Z.add_0_r.
  - apply Forall_cons in Hall as [(Ht & Hu & Hf & Ha) Hall].
    destruct mountpoint as [n mp t u f a]. simpl in Ht, Hu, Hf, Ha.
    destruct Ht as [t' ->], Hu as [u' ->], Hf as [f' ->], Ha as [a' ->].
    simpl sum_mountpoints. rewrite !sum_count_cons. simpl.
    rewrite IH by done. by rewrite !Z.add_assoc.
Qed.

(** An entry with an unset count makes the loop raise. *)
Lemma sum_mountpoints_incomplete (filesystem : list MountPoint.t) :
  forall name mount_point total used free available,
    ~ Forall complete filesystem ->
    sum_mountpoints
      (MountPoint.Build name mount_point (Some total) (Some used) (Some free)
         (Some available)) filesystem
    = Raised TypeError.
Proof.
  induction filesystem as [|mountpoint filesystem IH];
    intros name mount_point total used free available Hnot.
  - destruct Hnot. constructor.
  - destruct mountpoint as [n mp [t|] [u|] [f|] [a|]]; try reflexivity.
    simpl. apply IH. intros Hall. apply Hnot. constructor; [|done].
    repeat split; by eexists.
Qed.

(** C5, as the code has it.  The entry named "computed", mounted at "/",
    is appended after the existing entries, which stay as they are,
    exactly when the status has an OS descriptor whose name contains
    "Windows", has a filesystem list (empty or not) and every entry of the
    list has its four counts; the entry's four counts are then the sums of
    the entries' counts.  In every other case the status is unchanged. *)
Theorem computed_filesystem_entry (status : WorkerStatus.t) :
  (forall os filesystem,
     WorkerStatus.os status = Some os ->
     str_contains "Windows" (OperatingSystemInfo.name os) = true ->
     WorkerStatus.filesystem status = Some filesystem ->
     Forall complete filesystem ->
     _inject_computed_filesystem_usage status
     = WorkerStatus.set_filesystem
         (Some (filesystem ++ [computed_entry filesystem])%list) status)
  /\ (WorkerStatus.os status = None
      \/ (exists os, WorkerStatus.os status = Some os
          /\ str_contains "Windows" (OperatingSystemInfo.name os) = false)
      \/ WorkerStatus.filesystem status = None
      \/ (exists filesystem, WorkerStatus.filesystem status = Some filesystem
          /\ ~ Forall complete filesystem) ->
      _inject_computed_filesystem_usage status = status).
Proof.
  unfold _inject_computed_filesystem_usage. split.
  - intros os filesystem -> -> -> Hall. simpl.
    unfold computed_init. by rewrite sum_mountpoints_complete.
  - intros [->|[(os & -> & ->)|[Hfs|(filesystem & Hfs & Hnot)]]]; try done.
    + rewrite Hfs. destruct (WorkerStatus.os status); [|done].
      by destruct (negb _).
    + rewrite Hfs. destruct (WorkerStatus.os status); [|done].
      destruct (negb _); [done|].
      unfold computed_init. by rewrite sum_mountpoints_incomplete.
Qed.
End ComputedFilesystem.

Lemma computed_filesystem_entry_witness :
  _inject_computed_filesystem_usage
    (Sample.status "Microsoft Windows 11"
       [Sample.drive "C:" 100 40; Sample.drive "D:" 50 5] [])
  = WorkerStatus.set_filesystem
      (Some [Sample.drive "C:" 100 40; Sample.drive "D:" 50 5;
             MountPoint.Build "computed" "/" (Some 150) (Some 45) (Some 105)
               (Some 105)])
      (Sample.status "Microsoft Windows 11"
         [Sample.drive "C:" 100 40; Sample.drive "D:" 50 5] [])
  /\ _inject_computed_filesystem_usage
       (Sample.status "Ubuntu" [Sample.drive "/" 100 40] [])
     = Sample.status "Ubuntu" [Sample.drive "/" 100 40] [].
Proof.
  split.
  - apply (proj1 (computed_filesystem_entry
                    (Sample.status "Microsoft Windows 11"
                       [Sample.drive "C:" 100 40; Sample.drive "D:" 50 5] []))
             (OperatingSystemInfo.Build "Microsoft Windows 11" "1")
             [Sample.drive "C:" 100 40; Sample.drive "D:" 50 5]).
    + reflexivity.
    + reflexivity.
    + reflexivity.
    + repeat constructor; by eexists.
  - apply (proj2 (computed_filesystem_entry
                    (Sample.status "Ubuntu" [Sample.drive "/" 100 40] []))).
    right. left. exists (OperatingSystemInfo.Build "Ubuntu" "1").
    split; reflexivity.
Defined.

(** C5 as stated asks for a non-empty list: on the matching OS family with
    an empty filesystem list the entry is appended all the same. *)
Lemma computed_entry_appended_to_empty_filesystem :
  WorkerStatus.filesystem (Sample.status "Microsoft Windows 11" [] [])
  = Some []
  /\ WorkerStatus.filesystem
       (_inject_computed_filesystem_usage
          (Sample.status "Microsoft Windows 11" [] []))
     = Some [MountPoint.Build "computed" "/" (Some 0) (Some 0) (Some 0)
               (Some 0)].
Proof. split; reflexivity. Qed.

(** ** The unified-memory flag *)

Section UnifiedMemory.
Context `{DetectorSchema}.

(** What the step writes, read back from a status with a memory record:
    the flag of the memory record is [flag], its other fields and every
    other field of the status are as before. *)
Lemma set_unified_memory_read_back (status : WorkerStatus.t)
    (m : MemoryInfo.t) (flag : bool) :
  WorkerStatus.memory status = Some m ->
  let status' :=
    WorkerStatus.set_memory (Some (MemoryInfo.set_is_unified_memory flag m))
      status in
  exists m',
    WorkerStatus.memory status' = Some m'
    /\ MemoryInfo.is_unified_memory m' = flag
    /\ MemoryInfo.total m' = MemoryInfo.total m
    /\ MemoryInfo.free m' = MemoryInfo.free m
    /\ MemoryInfo.allocated m' = MemoryInfo.allocated m
    /\ WorkerStatus.cpu status' = WorkerStatus.cpu status
    /\ WorkerStatus.swap status' = WorkerStatus.swap status
    /\ WorkerStatus.filesystem status' = WorkerStatus.filesystem status
    /\ WorkerStatus.os status' = WorkerStatus.os status
    /\ WorkerStatus.kernel status' = WorkerStatus.kernel status
    /\ WorkerStatus.uptime status' = WorkerStatus.uptime status
    /\ WorkerStatus.gpu_devices status' = WorkerStatus.gpu_devices status
    /\ WorkerStatus.rpc_servers status' = WorkerStatus.rpc_servers status.
Proof.
  intros Hm. cbv zeta. eexists. split; [reflexivity|]. by repeat split.
Qed.

(** C6.  With a memory record on the status, the step returns a status
    whose memory record reads, as its unified-memory flag, the flag of the
    first device of the list (read from that device's memory record),
    whatever the rest of the list holds, and [false] when the device list
    is empty or absent; the other fields of the memory record and every
    other field of the status are as before.  Without a memory record on
    the status, the step, when it returns, returns the status unchanged,
    still without a memory record. *)
Theorem unified_memory_flag (status : WorkerStatus.t) :
  (forall m flag,
     WorkerStatus.memory status = Some m ->
     (exists device rest device_memory,
        WorkerStatus.gpu_devices status = Some (device :: rest)
        /\ GPUDeviceInfo.memory device = Some device_memory
        /\ flag = MemoryInfo.is_unified_memory device_memory)
     \/ ((WorkerStatus.gpu_devices status = Some []
          \/ WorkerStatus.gpu_devices status = None)
         /\ flag = false) ->
     exists status' m',
       _inject_unified_memory status = Returned status'
       /\ WorkerStatus.memory status' = Some m'
       /\ MemoryInfo.is_unified_memory m' = flag
       /\ MemoryInfo.total m' = MemoryInfo.total m
       /\ MemoryInfo.free m' = MemoryInfo.free m
       /\ MemoryInfo.allocated m' = MemoryInfo.allocated m
       /\ WorkerStatus.cpu status' = WorkerStatus.cpu status
       /\ WorkerStatus.swap status' = WorkerStatus.swap status
       /\ WorkerStatus.filesystem status' = WorkerStatus.filesystem status
       /\ WorkerStatus.os status' = WorkerStatus.os status
       /\ WorkerStatus.kernel status' = WorkerStatus.kernel status
       /\ WorkerStatus.uptime status' = WorkerStatus.uptime status
       /\ WorkerStatus.gpu_devices status' = WorkerStatus.gpu_devices status
       /\ WorkerStatus.rpc_servers status' = WorkerStatus.rpc_servers status)
  /\ (WorkerStatus.memory status = None ->
      forall status', _inject_unified_memory status = Returned status' ->
        status' = status /\ WorkerStatus.memory status' = None).
Proof.
  split.
  - intros m flag Hm Hflag.
    destruct (set_unified_memory_read_back status m flag Hm)
      as (m' & Hread).
    exists (WorkerStatus.set_memory
              (Some (MemoryInfo.set_is_unified_memory flag m)) status), m'.
    split; [|exact Hread].
    unfold _inject_unified_memory. rewrite Hm.
    destruct Hflag
      as [(device & rest & device_memory & -> & -> & ->)|[[-> | ->] ->]];
      reflexivity.
  - unfold _inject_unified_memory. intros Hm status' Hret. rewrite Hm in Hret.
    destruct (WorkerStatus.gpu_devices status) as [[|device rest]|];
      simpl in Hret; try (injection Hret as <-; done).
    destruct (GPUDeviceInfo.memory device); simpl in Hret;
      [injection Hret as <-; done|discriminate].
Qed.
End UnifiedMemory.

Lemma unified_memory_flag_witness :
  (exists status' m',
     _inject_unified_memory
       (Sample.status "Ubuntu" [] [Sample.device 0; Sample.bare_device 1])
     = Returned status'
     /\ MemoryInfo.is_unified_memory Sample.host_memory = false
     /\ WorkerStatus.memory status' = Some m'
     /\ MemoryInfo.is_unified_memory m' = true
     /\ MemoryInfo.total m' = Some 64)
  /\ (exists status' m',
        _inject_unified_memory
          (WorkerStatus.set_memory
             (Some (MemoryInfo.Build (Some 64) (Some 48) true None))
             (Sample.status "Ubuntu" [] []))
        = Returned status'
        /\ WorkerStatus.memory status' = Some m'
        /\ MemoryInfo.is_unified_memory m' = false)
  /\ (forall status',
        _inject_unified_memory
          (@WorkerStatus.empty Sample.plain_schema) = Returned status' ->
        status' = WorkerStatus.empty /\ WorkerStatus.memory status' = None).
Proof.
  split; [|split].
  - destruct (proj1 (unified_memory_flag
                       (Sample.status "Ubuntu" []
                          [Sample.device 0; Sample.bare_device 1]))
                Sample.host_memory true eq_refl)
      as (status' & m' & Hret & Hmemory & Hflag & Htotal & _).
    + left. exists (Sample.device 0), [Sample.bare_device 1],
        (MemoryInfo.Build (Some 16) (Some 16) true None).
      repeat split.
    + exists status', m'. repeat split; assumption.
  - destruct (proj1 (unified_memory_flag
                       (WorkerStatus.set_memory
                          (Some (MemoryInfo.Build (Some 64) (Some 48) true
                                   None))
                          (Sample.status "Ubuntu" [] [])))
                (MemoryInfo.Build (Some 64) (Some 48) true None) false
                eq_refl)
      as (status' & m' & Hret & Hmemory & Hflag & _).
    + right. split; [left; reflexivity|reflexivity].
    + exists status', m'. repeat split; assumption.
  - apply (proj2 (unified_memory_flag
                    (@WorkerStatus.empty Sample.plain_schema))).
    reflexivity.
Defined.

(** ** The steps of [collect], one field at a time *)

Section Steps.
Context `{DetectorSchema}.

(** [collect] is its detection steps followed by the three injections, the
    relay-server step and the assembly of the record. *)
Lemma collect_steps (self : WorkerStatusCollector.t) (initial : bool) :
  collect self initial
  = status ← _inject_unified_memory (detected_status self initial);
    status ← enumerate_rpc_servers self
               (_inject_allocated_resource self
                  (_inject_computed_filesystem_usage status));
    Returned
      (Worker.Build _ (_worker_name self) (_hostname self) (_worker_ip self)
         (_worker_port self)
         (if initial || truthy_str (gpu_detection_failure self initial)
          then NOT_READY else READY)
         status (gpu_detection_failure self initial)
         (match _worker_manager self with
          | Some _ => _worker_uuid self
          | None => None
          end)).
Proof.
  unfold collect, detected_status, gpu_detection_failure, enumerate_rpc_servers.
  destruct initial; [reflexivity|]. simpl negb. cbv iota.
  destruct (DetectorFactory.detect_gpus (_detector_factory self)) as [gpus|[]];
    reflexivity.
Qed.

(** What the unified-memory step returns differs from its argument in the
    memory record's flag only. *)
Lemma inject_unified_memory_inv (status status' : WorkerStatus.t) :
  _inject_unified_memory status = Returned status' ->
  exists flag,
    status'
    = WorkerStatus.set_memory
        (MemoryInfo.set_is_unified_memory flag <$> WorkerStatus.memory status)
        status.
Proof.
  unfold _inject_unified_memory. intros Hret.
  assert (Hgoal : forall flag,
            Returned
              match WorkerStatus.memory status with
              | Some m =>
                  WorkerStatus.set_memory
                    (Some (MemoryInfo.set_is_unified_memory flag m)) status
              | None => status
              end = Returned status' ->
            exists flag,
              status'
              = WorkerStatus.set_memory
                  (MemoryInfo.set_is_unified_memory flag
                     <$> WorkerStatus.memory status) status).
  { intros flag Heq. exists flag. injection Heq as <-.
    destruct status as [cpu [m|] swap filesystem os kernel uptime gpu rpc];
      reflexivity. }
  destruct (WorkerStatus.gpu_devices status) as [[|device rest]|];
    simpl in Hret; eauto.
  destruct (GPUDeviceInfo.memory device); simpl in Hret; eauto. discriminate.
Qed.

(** The unified-memory step raises only on a first device without a memory
    record. *)
Lemma inject_unified_memory_returns (status : WorkerStatus.t) :
  (forall device rest,
     WorkerStatus.gpu_devices status = Some (device :: rest) ->
     is_Some (GPUDeviceInfo.memory device)) ->
  returns (_inject_unified_memory status).
Proof.
  unfold _inject_unified_memory. intros Hfirst.
  destruct (WorkerStatus.gpu_devices status) as [[|device rest]|]; try done.
  destruct (Hfirst device rest eq_refl) as [m ->]. done.
Qed.

(** The filesystem step touches the filesystem list only, and creates
    none. *)
Lemma inject_computed_filesystem_usage_frame (status : WorkerStatus.t) :
  exists filesystem,
    _inject_computed_filesystem_usage status
    = WorkerStatus.set_filesystem filesystem status
    /\ (WorkerStatus.filesystem status = None -> filesystem = None).
Proof.
  unfold _inject_computed_filesystem_usage.
  assert (Hsame : status
                  = WorkerStatus.set_filesystem (WorkerStatus.filesystem status)
                      status) by by destruct status.
  destruct (WorkerStatus.os status) as [os|]; [|eauto].
  destruct (negb _); [eauto|].
  destruct (WorkerStatus.filesystem status) as [filesystem|]; [|eauto].
  destruct (sum_mountpoints computed_init filesystem); [|eauto].
  eexists. split; [reflexivity|discriminate].
Qed.

(** The allocated-resource step touches the memory record and the device
    list only, and creates neither. *)
Lemma inject_allocated_resource_shape (self : WorkerStatusCollector.t)
    (status : WorkerStatus.t) :
  exists memory gpu_devices,
    _inject_allocated_resource self status
    = WorkerStatus.set_gpu_devices gpu_devices
        (WorkerStatus.set_memory memory status)
    /\ (WorkerStatus.memory status = None -> memory = None)
    /\ (WorkerStatus.gpu_devices status = None -> gpu_devices = None).
Proof.
  unfold _inject_allocated_resource.
  destruct (list_model_instances self) as [items|e].
  - set (allocated := accumulate (_worker_name self) items).
    exists (MemoryInfo.set_allocated (Some (Allocated.ram allocated))
              <$> WorkerStatus.memory status),
           ((fun devices => (inject_vram (Allocated.vram allocated) devices).1)
              <$> WorkerStatus.gpu_devices status).
    by destruct status
      as [cpu [m|] swap filesystem os kernel uptime [devices|] rpc].
  - exists (WorkerStatus.memory status), (WorkerStatus.gpu_devices status).
    by destruct status.
Qed.

(** The relay-server step touches the server mapping only. *)
Lemma enumerate_rpc_servers_inv (self : WorkerStatusCollector.t)
    (status status' : WorkerStatus.t) :
  enumerate_rpc_servers self status = Returned status' ->
  exists rpc_servers, status' = WorkerStatus.set_rpc_servers rpc_servers status.
Proof.
  unfold enumerate_rpc_servers. intros Hret.
  destruct (_worker_manager self) as [worker_manager|].
  - destruct (WorkerManager.get_rpc_servers worker_manager); simpl in Hret;
      [|discriminate].
    injection Hret as <-. eauto.
  - injection Hret as <-. exists (WorkerStatus.rpc_servers status).
    by destruct status.
Qed.

Lemma enumerate_rpc_servers_returns (self : WorkerStatusCollector.t)
    (status : WorkerStatus.t) :
  rpc_enumeration_returns self -> returns (enumerate_rpc_servers self status).
Proof.
  unfold rpc_enumeration_returns, enumerate_rpc_servers. intros Hrpc.
  destruct (_worker_manager self) as [worker_manager|]; [|done].
  specialize (Hrpc worker_manager eq_refl).
  by destruct (WorkerManager.get_rpc_servers worker_manager).
Qed.

(** The record [collect] returns: identity, state and state message, and
    how its status relates to the status after detection. *)
Lemma collect_inv (self : WorkerStatusCollector.t) (initial : bool)
    (worker : Worker.t) :
  collect self initial = Returned worker ->
  let detected := detected_status self initial in
  let status := Worker.status worker in
  Worker.name worker = _worker_name self
  /\ Worker.state worker
     = (if initial || truthy_str (gpu_detection_failure self initial)
        then NOT_READY else READY)
  /\ Worker.state_message worker = gpu_detection_failure self initial
  /\ WorkerStatus.cpu status = WorkerStatus.cpu detected
  /\ WorkerStatus.swap status = WorkerStatus.swap detected
  /\ WorkerStatus.os status = WorkerStatus.os detected
  /\ WorkerStatus.kernel status = WorkerStatus.kernel detected
  /\ WorkerStatus.uptime status = WorkerStatus.uptime detected
  /\ (WorkerStatus.memory detected = None -> WorkerStatus.memory status = None)
  /\ (WorkerStatus.filesystem detected = None ->
      WorkerStatus.filesystem status = None)
  /\ (WorkerStatus.gpu_devices detected = None ->
      WorkerStatus.gpu_devices status = None).
Proof.
  rewrite collect_steps. intros Hret.
  destruct (_inject_unified_memory (detected_status self initial))
    as [unified|] eqn:Hunified; simpl in Hret; [|discriminate].
  apply inject_unified_memory_inv in Hunified as [flag ->].
  destruct (inject_computed_filesystem_usage_frame
              (WorkerStatus.set_memory
                 (MemoryInfo.set_is_unified_memory flag
                    <$> WorkerStatus.memory (detected_status self initial))
                 (detected_status self initial)))
    as (filesystem & Hstep & Hfilesystem).
  rewrite Hstep in Hret. clear Hstep.
  match type of Hret with
  | context [_inject_allocated_resource self ?s] =>
      destruct (inject_allocated_resource_shape self s)
        as (memory & gpu_devices & Hstep & Hmemory & Hgpu_devices)
  end.
  rewrite Hstep in Hret. clear Hstep.
  match type of Hret with
  | context [enumerate_rpc_servers self ?s] =>
      destruct (enumerate_rpc_servers self s) as [final|] eqn:Hrpc;
        simpl in Hret; [|discriminate]
  end.
  apply enumerate_rpc_servers_inv in Hrpc as [rpc_servers ->].
  injection Hret as <-. cbn.
  destruct (detected_status self initial)
    as [cpu m swap fs os kernel uptime gpu rpc].
  cbn in *. repeat split; try done; intros ->; auto.
Qed.

(** [collect] returns as soon as its two unguarded steps do. *)
Lemma collect_returns (self : WorkerStatusCollector.t) (initial : bool) :
  rpc_enumeration_returns self ->
  first_device_has_memory self initial ->
  returns (collect self initial).
Proof.
  intros Hrpc Hfirst. rewrite collect_steps.
  pose proof (inject_unified_memory_returns (detected_status self initial))
    as Hunified.
  destruct (_inject_unified_memory (detected_status self initial))
    as [unified|].
  - simpl.
    match goal with
    | |- context [enumerate_rpc_servers self ?s] =>
        pose proof (enumerate_rpc_servers_returns self s Hrpc) as Hret;
        destruct (enumerate_rpc_servers self s); [done|done]
    end.
  - apply Hunified. intros device rest Hdevices.
    unfold first_device_has_memory in Hfirst. unfold detected_status in Hdevices.
    destruct initial.
    + by destruct (DetectorFactory.detect_system_info (_detector_factory self)).
    + destruct (DetectorFactory.detect_gpus (_detector_factory self))
        as [gpus|err] eqn:Hgpus.
      * apply (Hfirst eq_refl device rest).
        destruct (DetectorFactory.detect_system_info (_detector_factory self));
          simpl in Hdevices; congruence.
      * by destruct (DetectorFactory.detect_system_info (_detector_factory self)).
Qed.
End Steps.

(** ** Readiness *)

Section Readiness.
Context `{DetectorSchema}.

(** The state [collect] computes: NOT_READY exactly on the initial snapshot
    or when GPU detection failed with a non-empty message; the message is
    attached in either state. *)
Lemma collect_state (self : WorkerStatusCollector.t) (initial : bool)
    (worker : Worker.t) :
  collect self initial = Returned worker ->
  (Worker.state worker = NOT_READY
   <-> initial = true
       \/ exists msg, gpu_detection_failure self initial = Some msg /\ msg <> "")
  /\ (Worker.state worker = READY \/ Worker.state worker = NOT_READY)
  /\ Worker.state_message worker = gpu_detection_failure self initial.
Proof.
  intros Hret. apply collect_inv in Hret as (_ & Hstate & Hmessage & _).
  rewrite Hstate, Hmessage. clear Hstate Hmessage.
  remember (gpu_detection_failure self initial) as failure eqn:Hfailure.
  split; [|split; [|done]].
  - destruct initial; [split; [by left|done]|]. clear Hfailure.
    destruct failure as [[|c msg]|]; simpl.
    + split; [done|]. intros [?|(msg & Heq & Hne)]; [done|]. congruence.
    + split; [|done]. intros _. right. by eexists.
    + split; [done|]. by intros [?|(msg & ? & _)].
  - destruct (initial || _); auto.
Qed.
End Readiness.

(** C1, at the input where the code departs from it.  GPU detection fails
    with the distinguished error carrying an empty message on a snapshot
    that is not the initial one: the failure is captured as the state
    message of the returned record, and the state is READY. *)
Theorem empty_detection_message_reports_ready :
  exists worker,
    collect
      (Sample.collector None Sample.linux (Raised (GPUDetectExepction "")))
      false
    = Returned worker
    /\ gpu_detection_failure
         (Sample.collector None Sample.linux (Raised (GPUDetectExepction "")))
         false
       = Some ""
    /\ Worker.state_message worker = Some ""
    /\ Worker.state worker = READY.
Proof. eexists. vm_compute. repeat split. Qed.

(** With a message that is not empty the same failure gives NOT_READY. *)
Example detection_message_reports_not_ready :
  Worker.state
    <$> collect
          (Sample.collector None Sample.linux
             (Raised (GPUDetectExepction "no GPU driver")))
          false
  = Returned NOT_READY.
Proof. vm_compute. reflexivity. Qed.

(** ** Failure isolation *)

Section FailureIsolation.
Context `{DetectorSchema}.

(** C2, as the code has it.  Whatever the detector and the cluster client
    do, raising included, [collect] returns a record as long as the relay
    server enumeration returns and the first detected GPU device, if any,
    has a memory record; the record carries the worker's name, and the
    message of a GPU-detection failure as its state message. *)
Theorem collect_absorbs_guarded_failures (self : WorkerStatusCollector.t)
    (initial : bool) :
  rpc_enumeration_returns self ->
  first_device_has_memory self initial ->
  exists worker,
    collect self initial = Returned worker
    /\ Worker.name worker = _worker_name self
    /\ Worker.state_message worker = gpu_detection_failure self initial.
Proof.
  intros Hrpc Hfirst.
  pose proof (collect_returns self initial Hrpc Hfirst) as Hret.
  destruct (collect self initial) as [worker|] eqn:Hcollect; [|done].
  exists worker. apply collect_inv in Hcollect as (Hname & _ & Hmessage & _).
  done.
Qed.

(** C7.  On the initial snapshot the returned status has no GPU device
    list, the call returns whenever the relay server enumeration does, and
    the outcome is the same whatever the GPU probe would have done. *)
Theorem initial_snapshot_skips_gpu_detection (self : WorkerStatusCollector.t) :
  (forall worker,
     collect self true = Returned worker ->
     WorkerStatus.gpu_devices (Worker.status worker) = None)
  /\ (rpc_enumeration_returns self -> returns (collect self true))
  /\ (forall detect_gpus,
        collect (with_detect_gpus detect_gpus self) true = collect self true).
Proof.
  split; [|split].
  - intros worker Hret.
    apply collect_inv in Hret as (_ & _ & _ & _ & _ & _ & _ & _ & _ & _ & Hgpu).
    apply Hgpu. unfold detected_status.
    by destruct (DetectorFactory.detect_system_info (_detector_factory self)).
  - intros Hrpc. by apply collect_returns.
  - intros detect_gpus. reflexivity.
Qed.

(** C8.  When system-info detection raises, a returned record has cpu,
    memory, swap, filesystem, os, kernel and uptime unset; its state
    message is the GPU-detection failure's, if any; with [initial] false
    and no such failure its state is READY; and the call returns as soon
    as its two unguarded steps do. *)
Theorem system_info_failure_is_silent (self : WorkerStatusCollector.t)
    (initial : bool) (e : exn) :
  DetectorFactory.detect_system_info (_detector_factory self) = Raised e ->
  (forall worker,
     collect self initial = Returned worker ->
     let status := Worker.status worker in
     WorkerStatus.cpu status = None
     /\ WorkerStatus.memory status = None
     /\ WorkerStatus.swap status = None
     /\ WorkerStatus.filesystem status = None
     /\ WorkerStatus.os status = None
     /\ WorkerStatus.kernel status = None
     /\ WorkerStatus.uptime status = None
     /\ Worker.state_message worker = gpu_detection_failure self initial
     /\ (initial = false ->
         gpu_detection_failure self initial = None ->
         Worker.state worker = READY))
  /\ (rpc_enumeration_returns self ->
      first_device_has_memory self initial ->
      returns (collect self initial)).
Proof.
  intros Hsystem. split; [|apply collect_returns].
  intros worker Hret.
  apply collect_inv in Hret
    as (_ & Hstate & Hmessage & Hcpu & Hswap & Hos & Hkernel & Huptime
        & Hmemory & Hfilesystem & _).
  assert (Hdetected : forall (A : Type) (field : WorkerStatus.t -> A),
            (forall gpu, field (WorkerStatus.set_gpu_devices gpu WorkerStatus.empty)
                         = field WorkerStatus.empty) ->
            field (detected_status self initial) = field WorkerStatus.empty).
  { intros A field Hfield. unfold detected_status. rewrite Hsystem.
    destruct initial; [done|].
    by destruct (DetectorFactory.detect_gpus (_detector_factory self)). }
  cbv zeta.
  rewrite Hcpu, Hswap, Hos, Hkernel, Huptime, Hmemory, Hfilesystem, Hmessage,
    Hstate.
  - rewrite !Hdetected by done. repeat split.
    intros -> ->. reflexivity.
  - by rewrite Hdetected.
  - by rewrite Hdetected.
Qed.
End FailureIsolation.

Lemma collect_absorbs_guarded_failures_witness :
  exists worker,
    collect
      (WorkerStatusCollector.Build Sample.plain_schema "worker-A" "host-a"
         "10.0.0.1" 10150 None (Some Sample.manager)
         (DetectorFactory.Build Sample.plain_schema
            (Raised (OtherException "probe failed"))
            (Raised (GPUDetectExepction "no GPU driver"))))
      false
    = Returned worker
    /\ Worker.name worker = "worker-A"
    /\ Worker.state_message worker = Some "no GPU driver".
Proof.
  apply (collect_absorbs_guarded_failures
           (WorkerStatusCollector.Build Sample.plain_schema "worker-A" "host-a"
              "10.0.0.1" 10150 None (Some Sample.manager)
              (DetectorFactory.Build Sample.plain_schema
                 (Raised (OtherException "probe failed"))
                 (Raised (GPUDetectExepction "no GPU driver"))))
           false).
  - intros worker_manager Hmanager. injection Hmanager as <-. exact I.
  - intros _ device rest Hdevices. discriminate Hdevices.
Defined.

(** C2 as stated covers every collaborator: when the worker manager's
    [get_rpc_servers] raises, [collect] raises the same exception. *)
Lemma collect_raises_when_rpc_enumeration_raises :
  collect
    (Sample.collector (Some Sample.failing_manager) Sample.linux
       (Returned [Sample.device 0]))
    false
  = Raised (OtherException "no process table").
Proof. vm_compute. reflexivity. Qed.

(** A first device without a memory record makes the unified-memory step,
    and with it [collect], raise. *)
Example collect_raises_on_bare_first_device :
  collect
    (Sample.collector (Some Sample.manager) Sample.linux
       (Returned [Sample.bare_device 0]))
    false
  = Raised AttributeError.
Proof. vm_compute. reflexivity. Qed.

Lemma initial_snapshot_skips_gpu_detection_witness :
  (forall worker,
     collect
       (Sample.collector (Some Sample.manager) Sample.linux
          (Returned [Sample.device 0]))
       true
     = Returned worker ->
     WorkerStatus.gpu_devices (Worker.status worker) = None)
  /\ returns
       (collect
          (Sample.collector (Some Sample.manager) Sample.linux
             (Returned [Sample.device 0]))
          true)
  /\ collect
       (Sample.collector (Some Sample.manager) Sample.linux
          (Raised (GPUDetectExepction "no GPU driver")))
       true
     = collect
         (Sample.collector (Some Sample.manager) Sample.linux
            (Returned [Sample.device 0]))
         true.
Proof.
  destruct (initial_snapshot_skips_gpu_detection
              (Sample.collector (Some Sample.manager) Sample.linux
                 (Returned [Sample.device 0])))
    as (Hnone & Hreturns & Hsame).
  split; [exact Hnone|split].
  - apply Hreturns. intros worker_manager Hmanager.
    injection Hmanager as <-. exact I.
  - exact (Hsame (Raised (GPUDetectExepction "no GPU driver"))).
Defined.

Lemma system_info_failure_is_silent_witness :
  (forall worker,
     collect
       (Sample.collector (Some Sample.manager)
          (Raised (OtherException "probe failed"))
          (Returned [Sample.device 0]))
       false
     = Returned worker ->
     WorkerStatus.cpu (Worker.status worker) = None
     /\ WorkerStatus.memory (Worker.status worker) = None
     /\ WorkerStatus.filesystem (Worker.status worker) = None
     /\ WorkerStatus.uptime (Worker.status worker) = None
     /\ Worker.state_message worker = None
     /\ Worker.state worker = READY)
  /\ returns
       (collect
          (Sample.collector (Some Sample.manager)
             (Raised (OtherException "probe failed"))
             (Returned [Sample.device 0]))
          false).
Proof.
  destruct (system_info_failure_is_silent
              (Sample.collector (Some Sample.manager)
                 (Raised (OtherException "probe failed"))
                 (Returned [Sample.device 0]))
              false (OtherException "probe failed") eq_refl)
    as (Hfields & Hreturns).
  split.
  - intros worker Hworker.
    destruct (Hfields worker Hworker)
      as (Hcpu & Hmemory & _ & Hfilesystem & _ & _ & Huptime & Hmessage
          & Hstate).
    repeat split;
      [exact Hcpu|exact Hmemory|exact Hfilesystem|exact Huptime|exact Hmessage
      |exact (Hstate eq_refl eq_refl)].
  - apply Hreturns.
    + intros worker_manager Hmanager. injection Hmanager as <-. exact I.
    + intros _ device rest Hdevices. injection Hdevices as <- <-.
      eexists. reflexivity.
Defined.

(** ** Determinism *)

Section Determinism.
Context `{DetectorSchema}.

Lemma detected_status_forget_uptime (self : WorkerStatusCollector.t)
    (initial : bool) :
  detected_status (forget_uptime_collector self) initial
  = forget_uptime_status (detected_status self initial).
Proof.
  unfold detected_status, forget_uptime_collector. simpl.
  destruct (DetectorFactory.detect_system_info (_detector_factory self)),
    initial; simpl; try done;
    by destruct (DetectorFactory.detect_gpus (_detector_factory self)).
Qed.

Lemma inject_unified_memory_forget_uptime (status : WorkerStatus.t) :
  _inject_unified_memory (forget_uptime_status status)
  = forget_uptime_status <$> _inject_unified_memory status.
Proof.
  destruct status as [cpu [m|] swap fs os kernel uptime [[|device rest]|] rpc];
    try reflexivity;
    unfold _inject_unified_memory; simpl;
    by destruct (GPUDeviceInfo.memory device).
Qed.

Lemma inject_computed_filesystem_usage_forget_uptime (status : WorkerStatus.t) :
  _inject_computed_filesystem_usage (forget_uptime_status status)
  = forget_uptime_status (_inject_computed_filesystem_usage status).
Proof.
  destruct status as [cpu m swap [fs|] [os|] kernel uptime gpu rpc];
    unfold _inject_computed_filesystem_usage; simpl; try done.
  - destruct (negb _); [done|].
    by destruct (sum_mountpoints computed_init fs).
  - by destruct (negb _).
Qed.

Lemma inject_allocated_resource_forget_uptime (self : WorkerStatusCollector.t)
    (status : WorkerStatus.t) :
  _inject_allocated_resource (forget_uptime_collector self)
    (forget_uptime_status status)
  = forget_uptime_status (_inject_allocated_resource self status).
Proof.
  unfold _inject_allocated_resource.
  change (list_model_instances (forget_uptime_collector self))
    with (list_model_instances self).
  change (_worker_name (forget_uptime_collector self)) with (_worker_name self).
  destruct (list_model_instances self) as [items|e]; [|done].
  by destruct status as [cpu [m|] swap fs os kernel uptime [devices|] rpc].
Qed.

Lemma enumerate_rpc_servers_forget_uptime (self : WorkerStatusCollector.t)
    (status : WorkerStatus.t) :
  enumerate_rpc_servers (forget_uptime_collector self)
    (forget_uptime_status status)
  = forget_uptime_status <$> enumerate_rpc_servers self status.
Proof.
  unfold enumerate_rpc_servers.
  change (_worker_manager (forget_uptime_collector self))
    with (_worker_manager self).
  destruct (_worker_manager self) as [worker_manager|]; [|done].
  by destruct (WorkerManager.get_rpc_servers worker_manager).
Qed.

(** Blanking the uptime in the detector's answer blanks it in the record
    and changes nothing else. *)
Lemma collect_forget_uptime (self : WorkerStatusCollector.t) (initial : bool) :
  collect (forget_uptime_collector self) initial
  = forget_uptime_worker <$> collect self initial.
Proof.
  rewrite !collect_steps.
  rewrite detected_status_forget_uptime, inject_unified_memory_forget_uptime.
  change (gpu_detection_failure (forget_uptime_collector self) initial)
    with (gpu_detection_failure self initial).
  destruct (_inject_unified_memory (detected_status self initial))
    as [unified|]; [|done].
  simpl.
  rewrite inject_computed_filesystem_usage_forget_uptime,
    inject_allocated_resource_forget_uptime,
    enumerate_rpc_servers_forget_uptime.
  match goal with
  | |- context [enumerate_rpc_servers self ?s] =>
      by destruct (enumerate_rpc_servers self s)
  end.
Qed.

(** Within one call, the uptime the detector reports influences no other
    field: two collectors that are the same except for that uptime give
    outcomes of [collect] that are the same up to [status.uptime]. *)
Theorem collect_deterministic_up_to_uptime
    (self1 self2 : WorkerStatusCollector.t) (initial : bool) :
  forget_uptime_collector self1 = forget_uptime_collector self2 ->
  forget_uptime_worker <$> collect self1 initial
  = forget_uptime_worker <$> collect self2 initial.
Proof.
  intros Hsame. by rewrite <- !collect_forget_uptime, Hsame.
Qed.
End Determinism.

Lemma collect_deterministic_up_to_uptime_witness :
  forget_uptime_worker
    <$> collect
          (Sample.collector (Some Sample.manager)
             (Returned
                (Sample.system_info "Microsoft Windows 11"
                   [Sample.drive "C:" 100 40] 3600))
             (Returned [Sample.device 0; Sample.device 2]))
          false
  = forget_uptime_worker
      <$> collect
            (Sample.collector (Some Sample.manager)
               (Returned
                  (Sample.system_info "Microsoft Windows 11"
                     [Sample.drive "C:" 100 40] 7200))
               (Returned [Sample.device 0; Sample.device 2]))
            false.
Proof.
  apply (collect_deterministic_up_to_uptime
           (Sample.collector (Some Sample.manager)
              (Returned
                 (Sample.system_info "Microsoft Windows 11"
                    [Sample.drive "C:" 100 40] 3600))
              (Returned [Sample.device 0; Sample.device 2]))
           (Sample.collector (Some Sample.manager)
              (Returned
                 (Sample.system_info "Microsoft Windows 11"
                    [Sample.drive "C:" 100 40] 7200))
              (Returned [Sample.device 0; Sample.device 2]))
           false).
  reflexivity.
Defined.

(** ** Further properties of the aggregation helper *)

Section AggregateClaims.

Lemma foldl_add_vram_absent items : forall (acc : gmap Z Z) (gpu_index : Z),
  gpu_index ∉ items.*1 ->
  foldl add_vram acc items !! gpu_index = acc !! gpu_index.
Proof.
  induction items as [|[k v] items IH]; intros acc gpu_index Hnotin; [done|].
  simpl in Hnotin. apply not_elem_of_cons in Hnotin as [Hne Hnotin].
  simpl foldl. rewrite IH by done. unfold add_vram; simpl.
  by rewrite lookup_insert_ne.
Qed.

Lemma foldl_add_vram_present items : forall (acc : gmap Z Z) (gpu_index v : Z),
  NoDup items.*1 ->
  (gpu_index, v) ∈ items ->
  foldl add_vram acc items !! gpu_index
  = Some (default 0 (acc !! gpu_index) + v).
Proof.
  induction items as [|[k w] items IH]; intros acc gpu_index v Hnd Hin.
  - by apply elem_of_nil in Hin.
  - simpl in Hnd. apply NoDup_cons in Hnd as [Hk Hnd]. simpl foldl.
    apply elem_of_cons in Hin as [Heq|Hin].
    + injection Heq as <- <-. rewrite foldl_add_vram_absent by done.
      unfold add_vram; simpl. by rewrite lookup_insert_eq.
    + rewrite (IH _ _ v) by done. unfold add_vram; simpl.
      rewrite lookup_insert_ne; [done|].
      intros ->. apply Hk. apply list_elem_of_fmap. by exists (gpu_index, v).
Qed.

Lemma foldl_add_vram_map_to_list (acc m : gmap Z Z) (gpu_index : Z) :
  foldl add_vram acc (map_to_list m) !! gpu_index
  = match m !! gpu_index with
    | Some v => Some (default 0 (acc !! gpu_index) + v)
    | None => acc !! gpu_index
    end.
Proof.
  destruct (m !! gpu_index) as [v|] eqn:Hm.
  - apply foldl_add_vram_present; [apply NoDup_fst_map_to_list|].
    by apply elem_of_map_to_list.
  - apply foldl_add_vram_absent. intros Hin.
    apply list_elem_of_fmap in Hin as [[k v] [-> Hin]].
    apply elem_of_map_to_list in Hin. simpl in Hm. congruence.
Qed.

Lemma aggregate_vram_lookup allocated claim gpu_index :
  Allocated.vram (aggregate_computed_resource_claim_allocated allocated claim)
    !! gpu_index
  = match claim_vram_entry gpu_index claim with
    | Some v => Some (default 0 (Allocated.vram allocated !! gpu_index) + v)
    | None => Allocated.vram allocated !! gpu_index
    end.
Proof.
  destruct claim as [[ram [m|]]|]; simpl;
    [apply foldl_add_vram_map_to_list|by rewrite ?map_to_list_empty|done].
Qed.

Lemma allocated_eq (a b : Allocated.t) :
  Allocated.ram a = Allocated.ram b ->
  Allocated.vram a = Allocated.vram b ->
  a = b.
Proof. destruct a, b; simpl; congruence. Qed.

(** X1.  Aggregating a claim adds its RAM scalar to the RAM total (an
    absent claim, an absent scalar and a scalar of zero add nothing), and
    for every GPU index: an index the claim has an entry for ends with the
    old value, zero when there was none, plus the entry, and so is present
    afterwards even when the entry is zero; any other index is left as it
    was, present or not. *)
Theorem aggregate_claim_effect (allocated : Allocated.t)
    (claim : option ComputedResourceClaim.t) :
  let allocated' :=
    aggregate_computed_resource_claim_allocated allocated claim in
  Allocated.ram allocated' = Allocated.ram allocated + claim_ram claim
  /\ (forall gpu_index v,
        claim_vram_entry gpu_index claim = Some v ->
        Allocated.vram allocated' !! gpu_index
        = Some (default 0 (Allocated.vram allocated !! gpu_index) + v))
  /\ (forall gpu_index,
        claim_vram_entry gpu_index claim = None ->
        Allocated.vram allocated' !! gpu_index
        = Allocated.vram allocated !! gpu_index).
Proof.
  cbv zeta. split; [apply aggregate_ram|].
  split; intros gpu_index; [intros v|]; intros Hentry;
    by rewrite aggregate_vram_lookup, Hentry.
Qed.

Lemma aggregate_commute allocated claim1 claim2 :
  aggregate_computed_resource_claim_allocated
    (aggregate_computed_resource_claim_allocated allocated claim1) claim2
  = aggregate_computed_resource_claim_allocated
      (aggregate_computed_resource_claim_allocated allocated claim2) claim1.
Proof.
  apply allocated_eq.
  - rewrite !aggregate_ram. lia.
  - apply map_eq. intros k. rewrite !aggregate_vram_lookup.
    destruct (claim_vram_entry k claim1) as [v1|],
      (claim_vram_entry k claim2) as [v2|]; simpl; try done.
    f_equal. lia.
Qed.

(** X2.  The order in which two claims are aggregated does not matter: the
    accumulator ends with the same RAM total and the same VRAM mapping. *)
Theorem aggregate_claims_commute (allocated : Allocated.t)
    (claim1 claim2 : option ComputedResourceClaim.t) :
  aggregate_computed_resource_claim_allocated
    (aggregate_computed_resource_claim_allocated allocated claim1) claim2
  = aggregate_computed_resource_claim_allocated
      (aggregate_computed_resource_claim_allocated allocated claim2) claim1.
Proof. apply aggregate_commute. Qed.

(** One turn of the instance loop aggregates the claims of [claims_for]. *)
Lemma aggregate_model_instance_claims worker_name allocated model_instance :
  aggregate_model_instance worker_name allocated model_instance
  = foldl aggregate_computed_resource_claim_allocated allocated
      (claims_for worker_name model_instance).
Proof.
  unfold aggregate_model_instance, claims_for, subordinates.
  rewrite foldl_app.
  assert (Hsubs : forall subs acc,
            foldl (aggregate_subworker worker_name) acc subs
            = foldl aggregate_computed_resource_claim_allocated acc
                (SubordinateWorker.computed_resource_claim
                   <$> filter
                         (fun sub => SubordinateWorker.worker_name sub
                                     = Some worker_name) subs)).
  { induction subs as [|sub subs IH]; intros acc; [done|].
    simpl foldl. rewrite IH, filter_cons. unfold aggregate_subworker.
    destruct (decide (SubordinateWorker.worker_name sub = Some worker_name)).
    - by rewrite bool_decide_eq_false_2 by (intros Hn; by apply Hn).
    - by rewrite bool_decide_eq_true_2 by done. }
  set (after_subs := match ModelInstance.distributed_servers model_instance with
                     | Some ds => _ | None => _ end).
  assert (Hafter : after_subs
            = foldl aggregate_computed_resource_claim_allocated allocated
                (SubordinateWorker.computed_resource_claim
                   <$> filter
                         (fun sub => SubordinateWorker.worker_name sub
                                     = Some worker_name)
                         match ModelInstance.distributed_servers
                                 model_instance with
                         | Some ds =>
                             default []
                               (DistributedServers.subordinate_workers ds)
                         | None => []
                         end)).
  { subst after_subs.
    destruct (ModelInstance.distributed_servers model_instance) as [[subs]|];
      [|done].
    destruct subs as [[|sub subs]|]; try done.
    apply (Hsubs (sub :: subs)). }
  rewrite Hafter.
  destruct (decide (ModelInstance.worker_name model_instance = Some worker_name)).
  - by rewrite bool_decide_eq_false_2 by (intros Hn; by apply Hn).
  - by rewrite bool_decide_eq_true_2 by done.
Qed.

Lemma accumulate_claims worker_name items :
  accumulate worker_name items
  = foldl aggregate_computed_resource_claim_allocated (Allocated.Build 0 ∅)
      (items ≫= claims_for worker_name).
Proof.
  unfold accumulate. generalize (Allocated.Build 0 ∅).
  induction items as [|model_instance items IH]; intros acc; [done|].
  rewrite bind_cons, foldl_app, <- aggregate_model_instance_claims.
  apply IH.
Qed.

Lemma foldl_aggregate_permutation claims claims' :
  claims ≡ₚ claims' ->
  forall allocated,
    foldl aggregate_computed_resource_claim_allocated allocated claims
    = foldl aggregate_computed_resource_claim_allocated allocated claims'.
Proof.
  induction 1 as [|c l l' _ IH|c1 c2 l|l1 l2 l3 _ IH1 _ IH2]; intros allocated.
  - done.
  - simpl. apply IH.
  - simpl. by rewrite aggregate_commute.
  - by rewrite IH1.
Qed.

(** X3.  The accumulator does not depend on the order in which the cluster
    client lists the model instances. *)
Theorem accumulate_permutation (worker_name : string)
    (items items' : list ModelInstance.t) :
  items ≡ₚ items' ->
  accumulate worker_name items = accumulate worker_name items'.
Proof.
  intros Hperm. rewrite !accumulate_claims.
  apply foldl_aggregate_permutation. by rewrite Hperm.
Qed.

Lemma claims_for_unrelated worker_name model_instance :
  ~ mentions worker_name model_instance ->
  claims_for worker_name model_instance = [].
Proof.
  unfold mentions, claims_for. intros Hnot.
  rewrite decide_False by tauto.
  assert (Hnone : ~ Exists
            (fun sub => SubordinateWorker.worker_name sub = Some worker_name)
            (subordinates model_instance)) by tauto.
  clear Hnot. induction (subordinates model_instance) as [|sub subs IH];
    [done|].
  rewrite filter_cons, decide_False.
  - apply IH. intros Hex. apply Hnone. by apply Exists_cons_tl.
  - intros Hsub. apply Hnone. by apply Exists_cons_hd.
Qed.

(** X4.  Instances that name the worker neither as owner nor as a
    subordinate contribute nothing: dropping them from the list leaves the
    accumulator as it is, and a list of such instances only leaves the
    accumulator at zero RAM and no VRAM entry. *)
Theorem accumulate_ignores_unrelated (worker_name : string)
    (items : list ModelInstance.t) :
  accumulate worker_name (filter (mentions worker_name) items)
  = accumulate worker_name items
  /\ (Forall (fun model_instance => ~ mentions worker_name model_instance)
        items ->
      accumulate worker_name items = Allocated.Build 0 ∅).
Proof.
  rewrite !accumulate_claims. split.
  - f_equal. induction items as [|model_instance items IH]; [done|].
    rewrite filter_cons.
    destruct (decide (mentions worker_name model_instance)) as [Hyes|Hno].
    + by rewrite !bind_cons, IH.
    + by rewrite bind_cons, claims_for_unrelated, IH.
  - intros Hall.
    assert (Hnil : items ≫= claims_for worker_name = []).
    { induction Hall as [|model_instance items Hno _ IH]; [done|].
      by rewrite bind_cons, claims_for_unrelated, IH. }
    by rewrite Hnil.
Qed.
End AggregateClaims.

Lemma aggregate_claim_effect_witness :
  let allocated' :=
    aggregate_computed_resource_claim_allocated
      (Allocated.Build 7 {[1 := 3]})
      (Some (ComputedResourceClaim.Build (Some 0) (Some {[0 := 0; 1 := 2]}))) in
  Allocated.ram allocated' = 7
  /\ Allocated.vram allocated' !! 0 = Some 0
  /\ Allocated.vram allocated' !! 1 = Some 5
  /\ Allocated.vram allocated' !! 2 = None.
Proof.
  cbv zeta.
  destruct (aggregate_claim_effect (Allocated.Build 7 {[1 := 3]})
              (Some (ComputedResourceClaim.Build (Some 0)
                       (Some {[0 := 0; 1 := 2]}))))
    as (Hram & Hentry & Hother).
  split; [exact Hram|]. split; [exact (Hentry 0 0 eq_refl)|].
  split; [exact (Hentry 1 2 eq_refl)|exact (Hother 2 eq_refl)].
Defined.

Lemma accumulate_permutation_witness :
  accumulate "worker-A" [Sample.owned_instance; Sample.joined_instance]
  = accumulate "worker-A" [Sample.joined_instance; Sample.owned_instance].
Proof.
  apply (accumulate_permutation "worker-A"
           [Sample.owned_instance; Sample.joined_instance]
           [Sample.joined_instance; Sample.owned_instance]).
  apply Permutation_swap.
Defined.

Lemma accumulate_ignores_unrelated_witness :
  accumulate "worker-C" Sample.instances = Allocated.Build 0 ∅.
Proof.
  apply (proj2 (accumulate_ignores_unrelated "worker-C" Sample.instances)).
  repeat constructor; intros [Howner|Hsub]; try discriminate Howner;
    simpl in Hsub.
  - inversion Hsub.
  - inversion Hsub as [sub subs Hname|sub subs Hrest];
      [discriminate Hname|inversion Hrest].
Defined.

(** ** Further properties of the allocated-resource step *)

Section AllocatedResourceSteps.
Context `{DetectorSchema}.

(** The device loop writes the devices before the first one without a
    memory record and leaves that one and all later ones as they were. *)
Lemma inject_vram_prefix vram (devices : list GPUDeviceInfo.t) :
  (inject_vram vram devices).1
  = (((fun device =>
         with_allocated (default 0 (vram !! GPUDeviceInfo.index device)) device)
        <$> take (leading_with_memory devices) devices)
     ++ drop (leading_with_memory devices) devices)%list.
Proof.
  induction devices as [|device devices IH]; [done|].
  simpl. unfold with_allocated at 1.
  destruct (GPUDeviceInfo.memory device) as [m|] eqn:Hm; [|done].
  destruct (inject_vram vram devices) as [rest' e]. simpl in *.
  rewrite Hm. by rewrite IH.
Qed.

Lemma inject_vram_idempotent vram (devices : list GPUDeviceInfo.t) :
  inject_vram vram (inject_vram vram devices).1 = inject_vram vram devices.
Proof.
  induction devices as [|device devices IH]; [done|].
  simpl. destruct (GPUDeviceInfo.memory device) as [m|] eqn:Hm.
  - destruct (inject_vram vram devices) as [rest' e]. simpl in *.
    rewrite IH. done.
  - simpl. by rewrite Hm.
Qed.

(** X5.  When the cluster client answers and the status has a device list,
    the step writes the claimed VRAM (zero without an accumulated entry) on
    the devices before the first device without a memory record, and
    leaves that device and every later one exactly as they were; the RAM
    total is written on the status's memory record all the same. *)
Theorem inject_allocated_resource_partial_write
    (self : WorkerStatusCollector.t) (status : WorkerStatus.t)
    (items : list ModelInstance.t) (devices : list GPUDeviceInfo.t) :
  list_model_instances self = Returned items ->
  WorkerStatus.gpu_devices status = Some devices ->
  let status' := _inject_allocated_resource self status in
  let n := leading_with_memory devices in
  WorkerStatus.gpu_devices status'
  = Some
      (((fun device =>
           with_allocated
             (spec_allocated_vram (_worker_name self) items
                (GPUDeviceInfo.index device)) device)
          <$> take n devices)
       ++ drop n devices)%list
  /\ WorkerStatus.memory status'
     = MemoryInfo.set_allocated
         (Some (spec_allocated_ram (_worker_name self) items))
       <$> WorkerStatus.memory status.
Proof.
  intros Hlist Hdevices. cbv zeta.
  unfold _inject_allocated_resource. rewrite Hlist.
  rewrite accumulate_ram.
  destruct status as [cpu memory swap filesystem os kernel uptime gpu rpc].
  simpl in Hdevices. subst gpu.
  assert (Hwritten :
    (inject_vram (Allocated.vram (accumulate (_worker_name self) items))
       devices).1
    = (((fun device =>
           with_allocated
             (spec_allocated_vram (_worker_name self) items
                (GPUDeviceInfo.index device)) device)
          <$> take (leading_with_memory devices) devices)
       ++ drop (leading_with_memory devices) devices)%list).
  { rewrite inject_vram_prefix. f_equal. apply list_fmap_ext.
    intros i device _. by rewrite accumulate_vram. }
  destruct memory as [m|]; simpl; by rewrite Hwritten.
Qed.

(** X6.  Running the allocated-resource step a second time on its own
    result changes nothing, whether the cluster client answered or raised
    and whether the device loop ran to its end or stopped. *)
Theorem inject_allocated_resource_idempotent (self : WorkerStatusCollector.t)
    (status : WorkerStatus.t) :
  _inject_allocated_resource self (_inject_allocated_resource self status)
  = _inject_allocated_resource self status.
Proof.
  unfold _inject_allocated_resource.
  destruct (list_model_instances self) as [items|e]; [|done].
  destruct status as [cpu [m|] swap filesystem os kernel uptime [devices|] rpc];
    simpl; try done; by rewrite inject_vram_idempotent.
Qed.
End AllocatedResourceSteps.

Lemma inject_allocated_resource_partial_write_witness :
  WorkerStatus.gpu_devices
    (_inject_allocated_resource
       (Sample.collector None Sample.linux (Returned []))
       (Sample.status "Ubuntu" []
          [Sample.device 0; Sample.bare_device 1; Sample.device 1]))
  = Some
      [GPUDeviceInfo.Build "gpu" 0
         (Some (MemoryInfo.Build (Some 16) (Some 16) true (Some 5)));
       Sample.bare_device 1; Sample.device 1]
  /\ WorkerStatus.memory
       (_inject_allocated_resource
          (Sample.collector None Sample.linux (Returned []))
          (Sample.status "Ubuntu" []
             [Sample.device 0; Sample.bare_device 1; Sample.device 1]))
     = Some (MemoryInfo.Build (Some 64) (Some 48) false (Some 15)).
Proof.
  destruct (inject_allocated_resource_partial_write
              (Sample.collector None Sample.linux (Returned []))
              (Sample.status "Ubuntu" []
                 [Sample.device 0; Sample.bare_device 1; Sample.device 1])
              Sample.instances
              [Sample.device 0; Sample.bare_device 1; Sample.device 1]
              eq_refl eq_refl)
    as (Hdevices & Hmemory).
  split.
  - rewrite Hdevices. vm_compute. reflexivity.
  - rewrite Hmemory. vm_compute. reflexivity.
Defined.

(** ** Further properties of the unified-memory step *)

Section UnifiedMemorySteps.
Context `{DetectorSchema}.

(** X7.  The unified-memory step raises exactly when the device list
    starts with a device that has no memory record, and then it raises
    [AttributeError]; whether the status itself has a memory record to
    write to plays no part. *)
Theorem inject_unified_memory_raises_iff (status : WorkerStatus.t) (e : exn) :
  _inject_unified_memory status = Raised e
  <-> e = AttributeError
      /\ exists device rest,
           WorkerStatus.gpu_devices status = Some (device :: rest)
           /\ GPUDeviceInfo.memory device = None.
Proof.
  unfold _inject_unified_memory. split.
  - intros Hraised.
    destruct (WorkerStatus.gpu_devices status) as [[|device rest]|];
      simpl in Hraised; try discriminate.
    destruct (GPUDeviceInfo.memory device) eqn:Hm; simpl in Hraised;
      [discriminate|].
    injection Hraised as <-. eauto.
  - intros (-> & device & rest & -> & ->). done.
Qed.

(** X8.  The unified-memory step is idempotent: applied to a status it
    returned, it returns that status again. *)
Theorem inject_unified_memory_idempotent (status status' : WorkerStatus.t) :
  _inject_unified_memory status = Returned status' ->
  _inject_unified_memory status' = Returned status'.
Proof.
  unfold _inject_unified_memory.
  destruct status
    as [cpu [m|] swap filesystem os kernel uptime [[|device rest]|] rpc];
    simpl; try (intros Hret; injection Hret as <-; done);
    destruct (GPUDeviceInfo.memory device) as [dm|] eqn:Hdm; simpl;
    intros Hret; try discriminate; injection Hret as <-; simpl;
    by rewrite Hdm.
Qed.
End UnifiedMemorySteps.

Lemma inject_unified_memory_raises_iff_witness :
  _inject_unified_memory
    (WorkerStatus.set_gpu_devices (Some [Sample.bare_device 0])
       (@WorkerStatus.empty Sample.plain_schema))
  = Raised AttributeError.
Proof.
  apply (proj2 (inject_unified_memory_raises_iff
                  (WorkerStatus.set_gpu_devices (Some [Sample.bare_device 0])
                     (@WorkerStatus.empty Sample.plain_schema))
                  AttributeError)).
  split; [reflexivity|]. exists (Sample.bare_device 0), [].
  split; reflexivity.
Defined.

Lemma inject_unified_memory_idempotent_witness :
  _inject_unified_memory
    (WorkerStatus.set_memory
       (Some (MemoryInfo.Build (Some 64) (Some 48) true None))
       (Sample.status "Ubuntu" [] [Sample.device 0]))
  = Returned
      (WorkerStatus.set_memory
         (Some (MemoryInfo.Build (Some 64) (Some 48) true None))
         (Sample.status "Ubuntu" [] [Sample.device 0])).
Proof.
  apply (inject_unified_memory_idempotent
           (Sample.status "Ubuntu" [] [Sample.device 0])).
  reflexivity.
Defined.

(** ** Further properties of the filesystem step *)

Section StringContainment.

Lemma append_nil_l (s : string) : ("" ++ s)%string = s.
Proof. reflexivity. Qed.

Lemma append_cons_l c (s t : string) :
  (String c s ++ t)%string = String c (s ++ t)%string.
Proof. reflexivity. Qed.

Lemma prefix_append (s1 s2 : string) :
  String.prefix s1 s2 = true <-> exists post, s2 = (s1 ++ post)%string.
Proof.
  revert s2. induction s1 as [|c s1 IH]; intros s2.
  - split; [intros _; exists s2; by rewrite append_nil_l|intros _; by destruct s2].
  - destruct s2 as [|c' s2]; simpl.
    + split; [done|]. intros [post Hpost]. by rewrite append_cons_l in Hpost.
    + destruct (Ascii.ascii_dec c c') as [->|Hne].
      * rewrite IH. split; intros [post Hpost]; exists post.
        -- by rewrite append_cons_l, Hpost.
        -- rewrite append_cons_l in Hpost. congruence.
      * split; [done|]. intros [post Hpost].
        rewrite append_cons_l in Hpost. congruence.
Qed.

(** X10.  The test [needle in hay], as used on the OS name with the needle
    "Windows", is a case-sensitive substring test: it holds exactly when
    the name is some text, then the needle, then some text. *)
Theorem str_contains_substring (needle hay : string) :
  str_contains needle hay = true
  <-> exists pre post, hay = (pre ++ needle ++ post)%string.
Proof.
  assert (Hnil : str_contains needle "" = String.prefix needle "" || false)
    by reflexivity.
  assert (Hcons : forall c rest,
            str_contains needle (String c rest)
            = String.prefix needle (String c rest) || str_contains needle rest)
    by reflexivity.
  split.
  - induction hay as [|c hay IH]; intros Hcontains.
    + rewrite Hnil in Hcontains.
      apply orb_true_iff in Hcontains as [Hprefix|?]; [|done].
      apply prefix_append in Hprefix as [post Hpost].
      exists "", post. by rewrite append_nil_l.
    + rewrite Hcons in Hcontains.
      apply orb_true_iff in Hcontains as [Hprefix|Hrest].
      * apply prefix_append in Hprefix as [post Hpost].
        exists "", post. by rewrite append_nil_l.
      * destruct (IH Hrest) as (pre & post & ->).
        exists (String c pre), post. by rewrite append_cons_l.
  - intros (pre & post & ->).
    induction pre as [|c pre IH].
    + rewrite append_nil_l.
      assert (Hprefix : String.prefix needle (needle ++ post)%string = true)
        by (apply prefix_append; by exists post).
      destruct (needle ++ post)%string as [|c rest].
      * by rewrite Hnil, Hprefix.
      * by rewrite Hcons, Hprefix.
    + rewrite append_cons_l, Hcons, IH. apply orb_true_r.
Qed.
End StringContainment.

Lemma str_contains_substring_witness :
  str_contains "Windows" "Microsoft Windows 11" = true
  /\ str_contains "Windows" "windows server" = false.
Proof.
  split.
  - apply (proj2 (str_contains_substring "Windows" "Microsoft Windows 11")).
    exists "Microsoft ", " 11". reflexivity.
  - reflexivity.
Defined.

Section FilesystemSteps.
Context `{DetectorSchema}.

Lemma sum_count_app count (filesystem1 filesystem2 : list MountPoint.t) :
  sum_count count (filesystem1 ++ filesystem2)
  = sum_count count filesystem1 + sum_count count filesystem2.
Proof.
  induction filesystem1 as [|mountpoint filesystem1 IH].
  - unfold sum_count at 2. simpl. lia.
  - rewrite <- app_comm_cons, !sum_count_cons, IH. lia.
Qed.

Lemma sum_count_singleton count (mountpoint : MountPoint.t) :
  sum_count count [mountpoint] = default 0 (count mountpoint).
Proof. rewrite sum_count_cons. unfold sum_count. simpl. lia. Qed.

Lemma inject_computed_filesystem_usage_complete (status : WorkerStatus.t)
    os filesystem :
  WorkerStatus.os status = Some os ->
  str_contains "Windows" (OperatingSystemInfo.name os) = true ->
  WorkerStatus.filesystem status = Some filesystem ->
  Forall complete filesystem ->
  _inject_computed_filesystem_usage status
  = WorkerStatus.set_filesystem
      (Some (filesystem ++ [computed_entry filesystem])%list) status.
Proof.
  unfold _inject_computed_filesystem_usage. intros -> -> -> Hall. simpl.
  unfold computed_init. by rewrite sum_mountpoints_complete.
Qed.

(** X9.  The filesystem step is not idempotent.  On a matching OS with a
    list of complete entries, a second run counts the entry the first run
    appended as one more mount point: it appends a second "computed" entry
    whose four counts are twice those of the first. *)
Theorem inject_computed_filesystem_usage_twice (status : WorkerStatus.t)
    (os : OperatingSystemInfo.t) (filesystem : list MountPoint.t) :
  WorkerStatus.os status = Some os ->
  str_contains "Windows" (OperatingSystemInfo.name os) = true ->
  WorkerStatus.filesystem status = Some filesystem ->
  Forall complete filesystem ->
  _inject_computed_filesystem_usage (_inject_computed_filesystem_usage status)
  = WorkerStatus.set_filesystem
      (Some (filesystem
             ++ [computed_entry filesystem;
                 doubled (computed_entry filesystem)])%list) status.
Proof.
  intros Hos Hname Hfilesystem Hall.
  rewrite (inject_computed_filesystem_usage_complete status os filesystem)
    by done.
  rewrite (inject_computed_filesystem_usage_complete _ os
             (filesystem ++ [computed_entry filesystem])%list).
  - destruct status as [cpu m swap fs o kernel uptime gpu rpc]. simpl.
    unfold WorkerStatus.set_filesystem. simpl. f_equal. f_equal.
    rewrite <- app_assoc. simpl. f_equal. f_equal. f_equal.
    unfold computed_entry, doubled. simpl.
    rewrite !sum_count_app, !sum_count_singleton. simpl.
    f_equal; f_equal; lia.
  - by destruct status.
  - done.
  - by destruct status.
  - apply Forall_app. split; [done|]. constructor; [|done].
    repeat split; by eexists.
Qed.
End FilesystemSteps.

Lemma inject_computed_filesystem_usage_twice_witness :
  WorkerStatus.filesystem
    (_inject_computed_filesystem_usage
       (_inject_computed_filesystem_usage
          (Sample.status "Microsoft Windows 11" [Sample.drive "C:" 100 40] [])))
  = Some
      [Sample.drive "C:" 100 40;
       MountPoint.Build "computed" "/" (Some 100) (Some 40) (Some 60) (Some 60);
       MountPoint.Build "computed" "/" (Some 200) (Some 80) (Some 120)
         (Some 120)].
Proof.
  rewrite (inject_computed_filesystem_usage_twice
             (Sample.status "Microsoft Windows 11" [Sample.drive "C:" 100 40] [])
             (OperatingSystemInfo.Build "Microsoft Windows 11" "1")
             [Sample.drive "C:" 100 40] eq_refl eq_refl eq_refl).
  - reflexivity.
  - repeat constructor; by eexists.
Defined.

(** ** Further properties of [collect] *)

Section CollectSteps.
Context `{DetectorSchema}.

Lemma detected_gpu_devices (self : WorkerStatusCollector.t) (initial : bool) :
  WorkerStatus.gpu_devices (detected_status self initial)
  = if initial then None
    else
      match DetectorFactory.detect_gpus (_detector_factory self) with
      | Returned devices => Some devices
      | Raised _ => None
      end.
Proof.
  unfold detected_status.
  destruct initial,
    (DetectorFactory.detect_system_info (_detector_factory self)); try done;
    by destruct (DetectorFactory.detect_gpus (_detector_factory self)).
Qed.

Lemma detected_system_fields (self : WorkerStatusCollector.t) (initial : bool)
    (A : Type) (field : WorkerStatus.t -> A) :
  (forall gpu status,
     field (WorkerStatus.set_gpu_devices gpu status) = field status) ->
  field (detected_status self initial)
  = field
      match DetectorFactory.detect_system_info (_detector_factory self) with
      | Returned system_info =>
          WorkerStatus.set_system_info system_info WorkerStatus.empty
      | Raised _ => WorkerStatus.empty
      end.
Proof.
  intros Hfield. unfold detected_status. destruct initial; [done|].
  by destruct (DetectorFactory.detect_gpus (_detector_factory self)).
Qed.

Lemma unified_detected_raised (self : WorkerStatusCollector.t)
    (initial : bool) (e : exn) :
  _inject_unified_memory (detected_status self initial) = Raised e
  <-> first_device_bare self initial /\ e = AttributeError.
Proof.
  unfold _inject_unified_memory, first_device_bare.
  rewrite detected_gpu_devices.
  destruct initial.
  - split; [done|]. by intros [[? _] _].
  - destruct (DetectorFactory.detect_gpus (_detector_factory self))
      as [[|device rest]|err]; simpl.
    + split; [done|]. by intros [[_ (? & ? & ? & _)] _].
    + destruct (GPUDeviceInfo.memory device) as [m|] eqn:Hm; simpl.
      * split; [done|]. intros [[_ (d & r & Heq & Hnone)] _].
        injection Heq as <- <-. congruence.
      * split.
        -- intros Heq. injection Heq as <-. split; [|done].
           split; [done|]. by exists device, rest.
        -- by intros [_ ->].
    + split; [done|]. by intros [[_ (? & ? & ? & _)] _].
Qed.

Lemma unified_detected_returned (self : WorkerStatusCollector.t)
    (initial : bool) (unified : WorkerStatus.t) :
  _inject_unified_memory (detected_status self initial) = Returned unified ->
  unified
  = WorkerStatus.set_memory
      (MemoryInfo.set_is_unified_memory (derived_unified_memory self initial)
         <$> WorkerStatus.memory (detected_status self initial))
      (detected_status self initial).
Proof.
  unfold _inject_unified_memory, derived_unified_memory.
  rewrite detected_gpu_devices.
  assert (Hshape : forall flag,
            match WorkerStatus.memory (detected_status self initial) with
            | Some m =>
                WorkerStatus.set_memory
                  (Some (MemoryInfo.set_is_unified_memory flag m))
                  (detected_status self initial)
            | None => detected_status self initial
            end
            = WorkerStatus.set_memory
                (MemoryInfo.set_is_unified_memory flag
                   <$> WorkerStatus.memory (detected_status self initial))
                (detected_status self initial)).
  { intros flag.
    by destruct (detected_status self initial) as [cpu [m|] ? ? ? ? ? ? ?]. }
  destruct initial.
  - simpl. intros Hret. injection Hret as <-. apply Hshape.
  - destruct (DetectorFactory.detect_gpus (_detector_factory self))
      as [[|device rest]|err]; simpl;
      try (intros Hret; injection Hret as <-; apply Hshape).
    destruct (GPUDeviceInfo.memory device) as [m|]; simpl;
      intros Hret; [|discriminate].
    injection Hret as <-. apply Hshape.
Qed.

(** The status of the record [collect] returns is what the relay-server
    step makes of the status the three injections leave. *)
Lemma collect_status (self : WorkerStatusCollector.t) (initial : bool)
    (worker : Worker.t) :
  collect self initial = Returned worker ->
  exists unified,
    _inject_unified_memory (detected_status self initial) = Returned unified
    /\ enumerate_rpc_servers self
         (_inject_allocated_resource self
            (_inject_computed_filesystem_usage unified))
       = Returned (Worker.status worker)
    /\ Worker.worker_uuid worker
       = match _worker_manager self with
         | Some _ => _worker_uuid self
         | None => None
         end.
Proof.
  rewrite collect_steps. intros Hret.
  destruct (_inject_unified_memory (detected_status self initial))
    as [unified|]; simpl in Hret; [|discriminate].
  exists unified. split; [done|].
  destruct (enumerate_rpc_servers self _) as [final|]; simpl in Hret;
    [|discriminate].
  injection Hret as <-. done.
Qed.

Lemma enumerate_rpc_servers_raised (self : WorkerStatusCollector.t)
    (status : WorkerStatus.t) (e : exn) :
  enumerate_rpc_servers self status = Raised e
  <-> exists worker_manager,
        _worker_manager self = Some worker_manager
        /\ WorkerManager.get_rpc_servers worker_manager = Raised e.
Proof.
  unfold enumerate_rpc_servers.
  destruct (_worker_manager self) as [worker_manager|].
  - destruct (WorkerManager.get_rpc_servers worker_manager) as [procs|err]
      eqn:Hrpc; simpl.
    + split; [done|]. intros (wm & Heq & Hraised).
      injection Heq as <-. congruence.
    + split.
      * intros Heq. injection Heq as <-. by exists worker_manager.
      * intros (wm & Heq & Hraised). injection Heq as <-. congruence.
  - split; [done|]. by intros (? & ? & _).
Qed.

Lemma enumerate_rpc_servers_rpc (self : WorkerStatusCollector.t)
    (status status' : WorkerStatus.t) :
  enumerate_rpc_servers self status = Returned status' ->
  WorkerStatus.rpc_servers status'
  = match _worker_manager self with
    | Some worker_manager =>
        match WorkerManager.get_rpc_servers worker_manager with
        | Returned server_processes => Some (rps_server server_processes)
        | Raised _ => None
        end
    | None => WorkerStatus.rpc_servers status
    end
  /\ WorkerStatus.memory status' = WorkerStatus.memory status
  /\ WorkerStatus.gpu_devices status' = WorkerStatus.gpu_devices status
  /\ WorkerStatus.filesystem status' = WorkerStatus.filesystem status.
Proof.
  unfold enumerate_rpc_servers.
  destruct (_worker_manager self) as [worker_manager|].
  - destruct (WorkerManager.get_rpc_servers worker_manager); simpl;
      intros Hret; [|discriminate].
    injection Hret as <-. done.
  - intros Hret. injection Hret as <-. done.
Qed.

Lemma inject_allocated_resource_memory (self : WorkerStatusCollector.t)
    (status : WorkerStatus.t) :
  WorkerStatus.memory (_inject_allocated_resource self status)
  = match list_model_instances self with
    | Returned items =>
        MemoryInfo.set_allocated
          (Some (spec_allocated_ram (_worker_name self) items))
        <$> WorkerStatus.memory status
    | Raised _ => WorkerStatus.memory status
    end.
Proof.
  unfold _inject_allocated_resource.
  destruct (list_model_instances self) as [items|e]; [|done].
  rewrite accumulate_ram.
  by destruct status as [cpu [m|] ? ? ? ? ? [devices|] ?].
Qed.

Lemma inject_allocated_resource_devices (self : WorkerStatusCollector.t)
    (status : WorkerStatus.t) :
  WorkerStatus.gpu_devices (_inject_allocated_resource self status)
  = match list_model_instances self with
    | Returned items =>
        (fun devices =>
           ((fun device =>
               with_allocated
                 (spec_allocated_vram (_worker_name self) items
                    (GPUDeviceInfo.index device)) device)
              <$> take (leading_with_memory devices) devices)
           ++ drop (leading_with_memory devices) devices)%list
        <$> WorkerStatus.gpu_devices status
    | Raised _ => WorkerStatus.gpu_devices status
    end.
Proof.
  unfold _inject_allocated_resource.
  destruct (list_model_instances self) as [items|e]; [|done].
  destruct status as [cpu [m|] ? ? ? ? ? [devices|] ?]; simpl; try done;
    rewrite inject_vram_prefix; f_equal; f_equal; apply list_fmap_ext;
    intros i device _; by rewrite accumulate_vram.
Qed.
End CollectSteps.

Section CollectProperties.
Context `{DetectorSchema}.

(** X11.  [collect] raises in two cases only.  When GPU detection is
    attempted and its first device has no memory record, it raises
    [AttributeError] (from the unified-memory step).  Otherwise it raises
    exactly the exception the worker manager's [get_rpc_servers] raises, if
    it raises one.  Failures of system-info detection, of GPU detection
    and of the cluster client never reach the caller. *)
Theorem collect_raises_iff (self : WorkerStatusCollector.t) (initial : bool)
    (e : exn) :
  collect self initial = Raised e
  <-> (first_device_bare self initial /\ e = AttributeError)
      \/ (~ first_device_bare self initial
          /\ exists worker_manager,
               _worker_manager self = Some worker_manager
               /\ WorkerManager.get_rpc_servers worker_manager = Raised e).
Proof.
  rewrite collect_steps.
  destruct (_inject_unified_memory (detected_status self initial))
    as [unified|err] eqn:Hunified; simpl.
  - assert (Hnot : ~ first_device_bare self initial).
    { intros Hbare.
      assert (Hraised : _inject_unified_memory (detected_status self initial)
                        = Raised AttributeError)
        by by apply unified_detected_raised.
      congruence. }
    destruct (enumerate_rpc_servers self _) as [final|err] eqn:Hrpc; simpl.
    + split; [done|]. intros [[Hbare _]|[_ Hmanager]]; [done|].
      apply (enumerate_rpc_servers_raised self
               (_inject_allocated_resource self
                  (_inject_computed_filesystem_usage unified))) in Hmanager.
      congruence.
    + apply enumerate_rpc_servers_raised in Hrpc. split.
      * intros Heq. injection Heq as <-. by right.
      * intros [[Hbare _]|[_ (wm & Hwm & Hraised)]]; [done|].
        destruct Hrpc as (wm' & Hwm' & Hraised'). congruence.
  - apply unified_detected_raised in Hunified as [Hbare ->]. split.
    + intros Heq. injection Heq as <-. by left.
    + intros [[_ ->]|[Hnot _]]; [done|]. by destruct Hnot.
Qed.

(** X12.  In a returned record, the relay-server mapping and the worker
    UUID follow the worker manager.  Without a manager both are unset.
    With one, the UUID is the manager's, and the mapping has exactly the
    GPU indices of the manager's process table, each entry carrying its
    process's pid and port and, as GPU index, its own key. *)
Theorem collect_rpc_servers (self : WorkerStatusCollector.t) (initial : bool)
    (worker : Worker.t) :
  collect self initial = Returned worker ->
  match _worker_manager self with
  | None =>
      WorkerStatus.rpc_servers (Worker.status worker) = None
      /\ Worker.worker_uuid worker = None
  | Some worker_manager =>
      Worker.worker_uuid worker
      = Some (WorkerManager.get_worker_uuid worker_manager)
      /\ exists server_processes servers,
           WorkerManager.get_rpc_servers worker_manager
           = Returned server_processes
           /\ WorkerStatus.rpc_servers (Worker.status worker) = Some servers
           /\ forall gpu_index,
                servers !! gpu_index
                = (fun process =>
                     RPCServer.Build
                       (Process.pid (RPCServerProcess.process process))
                       (RPCServerProcess.port process) gpu_index)
                  <$> server_processes !! gpu_index
  end.
Proof.
  intros Hret.
  destruct (collect_status self initial worker Hret)
    as (unified & Hunified & Hrpc & Huuid).
  pose proof (enumerate_rpc_servers_rpc self _ _ Hrpc) as (Hservers & _).
  unfold _worker_uuid in Huuid.
  destruct (_worker_manager self) as [worker_manager|] eqn:Hmanager.
  - split; [done|].
    unfold enumerate_rpc_servers in Hrpc. rewrite Hmanager in Hrpc.
    destruct (WorkerManager.get_rpc_servers worker_manager)
      as [server_processes|]; simpl in Hrpc; [|discriminate].
    exists server_processes, (rps_server server_processes).
    split; [done|]. split; [done|].
    intros gpu_index. unfold rps_server. rewrite map_lookup_imap.
    by destruct (server_processes !! gpu_index).
  - split; [|done]. rewrite Hservers.
    match goal with
    | |- context [_inject_allocated_resource self ?s] =>
        destruct (inject_allocated_resource_shape self s)
          as (memory & gpu & -> & _)
    end.
    destruct (inject_computed_filesystem_usage_frame unified)
      as (filesystem & -> & _).
    apply unified_detected_returned in Hunified as ->.
    transitivity (WorkerStatus.rpc_servers (detected_status self initial));
      [by destruct (detected_status self initial)|].
    rewrite detected_system_fields by done.
    by destruct (DetectorFactory.detect_system_info (_detector_factory self)).
Qed.

(** X13.  A failure of GPU detection that is not the distinguished one is
    silent: the returned record has no GPU device list and no state
    message, and its state is READY. *)
Theorem generic_gpu_failure_is_silent (self : WorkerStatusCollector.t)
    (e : exn) (worker : Worker.t) :
  DetectorFactory.detect_gpus (_detector_factory self) = Raised e ->
  (forall msg, e <> GPUDetectExepction msg) ->
  collect self false = Returned worker ->
  WorkerStatus.gpu_devices (Worker.status worker) = None
  /\ Worker.state_message worker = None
  /\ Worker.state worker = READY.
Proof.
  intros Hgpus Hgeneric Hret.
  apply collect_inv in Hret
    as (_ & Hstate & Hmessage & _ & _ & _ & _ & _ & _ & _ & Hdevices).
  assert (Hfailure : gpu_detection_failure self false = None).
  { unfold gpu_detection_failure. rewrite Hgpus.
    destruct e as [msg| | |]; try done. by destruct (Hgeneric msg). }
  rewrite Hstate, Hmessage, Hfailure. split; [|done].
  apply Hdevices. by rewrite detected_gpu_devices, Hgpus.
Qed.

(** X14.  The memory record of a returned status is the detector's memory
    record with two fields overwritten: the unified-memory flag, taken
    from the first detected device ([false] on the initial snapshot and
    without a detected device), and, when the cluster client answers, the
    allocated RAM total.  When the cluster client raises, [allocated]
    stays as the detector reported it.  Without a detected memory record
    the status has none. *)
Theorem collect_memory_record (self : WorkerStatusCollector.t)
    (initial : bool) (worker : Worker.t) :
  collect self initial = Returned worker ->
  WorkerStatus.memory (Worker.status worker)
  = (fun m =>
       let m := MemoryInfo.set_is_unified_memory
                  (derived_unified_memory self initial) m in
       match list_model_instances self with
       | Returned items =>
           MemoryInfo.set_allocated
             (Some (spec_allocated_ram (_worker_name self) items)) m
       | Raised _ => m
       end)
    <$> match DetectorFactory.detect_system_info (_detector_factory self) with
        | Returned system_info => SystemInfo.memory system_info
        | Raised _ => None
        end.
Proof.
  intros Hret.
  destruct (collect_status self initial worker Hret)
    as (unified & Hunified & Hrpc & _).
  apply enumerate_rpc_servers_rpc in Hrpc as (_ & -> & _).
  rewrite inject_allocated_resource_memory.
  destruct (inject_computed_filesystem_usage_frame unified)
    as (filesystem & -> & _).
  apply unified_detected_returned in Hunified as ->.
  assert (Hdetected : WorkerStatus.memory (detected_status self initial)
            = match DetectorFactory.detect_system_info
                      (_detector_factory self) with
              | Returned system_info => SystemInfo.memory system_info
              | Raised _ => None
              end).
  { rewrite detected_system_fields by done.
    by destruct (DetectorFactory.detect_system_info (_detector_factory self)). }
  rewrite <- Hdetected.
  destruct (detected_status self initial) as [cpu [m|] ? ? ? ? ? ? ?];
    by destruct (list_model_instances self).
Qed.

(** X15.  When GPU detection answers, the device list of a returned status
    is the detected list, in the same order.  When the cluster client
    answers too, the devices before the first one without a memory record
    carry the VRAM claimed on this worker for their index (zero when none
    is claimed) as [allocated], and the others are as detected; when the
    cluster client raises, all devices are as detected. *)
Theorem collect_gpu_devices (self : WorkerStatusCollector.t)
    (devices : list GPUDeviceInfo.t) (worker : Worker.t) :
  DetectorFactory.detect_gpus (_detector_factory self) = Returned devices ->
  collect self false = Returned worker ->
  WorkerStatus.gpu_devices (Worker.status worker)
  = Some
      match list_model_instances self with
      | Returned items =>
          (((fun device =>
               with_allocated
                 (spec_allocated_vram (_worker_name self) items
                    (GPUDeviceInfo.index device)) device)
              <$> take (leading_with_memory devices) devices)
           ++ drop (leading_with_memory devices) devices)%list
      | Raised _ => devices
      end.
Proof.
  intros Hgpus Hret.
  destruct (collect_status self false worker Hret)
    as (unified & Hunified & Hrpc & _).
  apply enumerate_rpc_servers_rpc in Hrpc as (_ & _ & -> & _).
  rewrite inject_allocated_resource_devices.
  destruct (inject_computed_filesystem_usage_frame unified)
    as (filesystem & -> & _).
  apply unified_detected_returned in Hunified as ->.
  assert (Hdetected : WorkerStatus.gpu_devices (detected_status self false)
                      = Some devices)
    by by rewrite detected_gpu_devices, Hgpus.
  destruct (detected_status self false) as [? ? ? ? ? ? ? gpu ?].
  simpl in Hdetected. subst gpu.
  by destruct (list_model_instances self).
Qed.

(** X16.  When system-info detection answers, a returned status carries
    the detector's cpu, swap, os, kernel and uptime as they are, and its
    filesystem list is the detector's list followed by at most one more
    entry; an entry is added only when the OS name contains "Windows". *)
Theorem collect_system_fields (self : WorkerStatusCollector.t)
    (initial : bool) (system_info : SystemInfo.t) (worker : Worker.t) :
  DetectorFactory.detect_system_info (_detector_factory self)
  = Returned system_info ->
  collect self initial = Returned worker ->
  let status := Worker.status worker in
  WorkerStatus.cpu status = SystemInfo.cpu system_info
  /\ WorkerStatus.swap status = SystemInfo.swap system_info
  /\ WorkerStatus.os status = SystemInfo.os system_info
  /\ WorkerStatus.kernel status = SystemInfo.kernel system_info
  /\ WorkerStatus.uptime status = SystemInfo.uptime system_info
  /\ exists extra,
       WorkerStatus.filesystem status
       = (fun filesystem => (filesystem ++ extra)%list)
         <$> SystemInfo.filesystem system_info
       /\ (length extra <= 1)%nat
       /\ (extra <> [] ->
           exists os,
             SystemInfo.os system_info = Some os
             /\ str_contains "Windows" (OperatingSystemInfo.name os) = true).
Proof.
  intros Hsystem Hret. cbv zeta.
  pose proof (collect_inv self initial worker Hret)
    as (_ & _ & _ & Hcpu & Hswap & Hos & Hkernel & Huptime & _).
  rewrite Hcpu, Hswap, Hos, Hkernel, Huptime.
  rewrite !detected_system_fields by done. rewrite Hsystem.
  repeat (split; [done|]).
  destruct (collect_status self initial worker Hret)
    as (unified & Hunified & Hrpc & _).
  apply enumerate_rpc_servers_rpc in Hrpc as (_ & _ & _ & ->).
  match goal with
  | |- context [_inject_allocated_resource self ?s] =>
      destruct (inject_allocated_resource_shape self s)
        as (memory & gpu & -> & _)
  end.
  apply unified_detected_returned in Hunified as ->.
  set (flagged := WorkerStatus.set_memory _ (detected_status self initial)).
  assert (Hfs : WorkerStatus.filesystem flagged
                = SystemInfo.filesystem system_info).
  { subst flagged.
    transitivity (WorkerStatus.filesystem (detected_status self initial));
      [by destruct (detected_status self initial)|].
    rewrite detected_system_fields by done. by rewrite Hsystem. }
  assert (Hflagged_os : WorkerStatus.os flagged = SystemInfo.os system_info).
  { subst flagged.
    transitivity (WorkerStatus.os (detected_status self initial));
      [by destruct (detected_status self initial)|].
    rewrite detected_system_fields by done. by rewrite Hsystem. }
  change (WorkerStatus.filesystem
            (WorkerStatus.set_gpu_devices gpu
               (WorkerStatus.set_memory memory
                  (_inject_computed_filesystem_usage flagged))))
    with (WorkerStatus.filesystem (_inject_computed_filesystem_usage flagged)).
  unfold _inject_computed_filesystem_usage. rewrite Hflagged_os, Hfs.
  assert (Hnone : exists extra : list MountPoint.t,
            WorkerStatus.filesystem flagged
            = (fun filesystem => (filesystem ++ extra)%list)
              <$> SystemInfo.filesystem system_info
            /\ (length extra <= 1)%nat
            /\ (extra <> [] ->
                exists os,
                  SystemInfo.os system_info = Some os
                  /\ str_contains "Windows" (OperatingSystemInfo.name os)
                     = true)).
  { exists []. split; [|split; [simpl; lia|done]]. rewrite Hfs.
    destruct (SystemInfo.filesystem system_info); simpl; [|done].
    by rewrite app_nil_r. }
  destruct (SystemInfo.os system_info) as [os|]; [|exact Hnone].
  destruct (str_contains "Windows" (OperatingSystemInfo.name os)) eqn:Hname;
    simpl; [|exact Hnone].
  destruct (SystemInfo.filesystem system_info) as [filesystem|];
    [|exact Hnone].
  destruct (sum_mountpoints computed_init filesystem) as [computed|];
    [|exact Hnone].
  exists [computed]. split; [by destruct flagged|].
  split; [simpl; lia|]. intros _. by exists os.
Qed.

(** X17.  The state of a returned record is NOT_READY exactly when the
    snapshot is the initial one or GPU detection failed with the
    distinguished error and a message that is not empty; in every other
    case it is READY.  The state message is the message of the
    distinguished failure, empty or not, and is unset otherwise. *)
Theorem readiness_characterisation (self : WorkerStatusCollector.t)
    (initial : bool) (worker : Worker.t) :
  collect self initial = Returned worker ->
  (Worker.state worker = NOT_READY
   <-> initial = true
       \/ exists msg, gpu_detection_failure self initial = Some msg /\ msg <> "")
  /\ (Worker.state worker <> NOT_READY -> Worker.state worker = READY)
  /\ Worker.state_message worker = gpu_detection_failure self initial.
Proof.
  intros Hret.
  apply collect_inv in Hret as (_ & Hstate & Hmessage & _).
  rewrite Hstate, Hmessage. clear Hstate Hmessage.
  remember (gpu_detection_failure self initial) as failure eqn:Hfailure.
  split; [|split; [|done]].
  - destruct initial; [split; [by left|done]|]. clear Hfailure.
    destruct failure as [[|c msg]|]; simpl.
    + split; [done|]. intros [?|(msg & Heq & Hne)]; [done|]. congruence.
    + split; [|done]. intros _. right. by eexists.
    + split; [done|]. by intros [?|(msg & ? & _)].
  - by destruct (initial || _).
Qed.
End CollectProperties.

Lemma collect_raises_iff_witness :
  collect
    (Sample.collector (Some Sample.manager) Sample.linux
       (Returned [Sample.bare_device 0; Sample.device 1]))
    false
  = Raised AttributeError
  /\ collect
       (Sample.collector (Some Sample.failing_manager)
          (Raised (OtherException "probe failed"))
          (Raised (OtherException "no driver")))
       false
     = Raised (OtherException "no process table").
Proof.
  split.
  - apply (proj2 (collect_raises_iff
                    (Sample.collector (Some Sample.manager) Sample.linux
                       (Returned [Sample.bare_device 0; Sample.device 1]))
                    false AttributeError)).
    left. split; [|reflexivity]. split; [reflexivity|].
    exists (Sample.bare_device 0), [Sample.device 1]. split; reflexivity.
  - apply (proj2 (collect_raises_iff
                    (Sample.collector (Some Sample.failing_manager)
                       (Raised (OtherException "probe failed"))
                       (Raised (OtherException "no driver")))
                    false (OtherException "no process table"))).
    right. split.
    + intros [_ (device & rest & Hgpus & _)]. discriminate Hgpus.
    + exists Sample.failing_manager. split; reflexivity.
Defined.

Lemma collect_rpc_servers_witness :
  exists worker servers,
    collect
      (Sample.collector (Some Sample.manager) Sample.linux
         (Returned [Sample.device 0]))
      false
    = Returned worker
    /\ Worker.worker_uuid worker = Some "uuid-1"
    /\ WorkerStatus.rpc_servers (Worker.status worker) = Some servers
    /\ servers !! 0 = Some (RPCServer.Build 4242 50051 0)
    /\ servers !! 1 = None.
Proof.
  eexists.
  assert (Hret : collect
                   (Sample.collector (Some Sample.manager) Sample.linux
                      (Returned [Sample.device 0]))
                   false
                 = Returned _) by (vm_compute; reflexivity).
  destruct (collect_rpc_servers _ _ _ Hret)
    as (Huuid & server_processes & servers & Hprocs & Hservers & Hlookup).
  exists servers. split; [exact Hret|]. split; [exact Huuid|].
  split; [exact Hservers|].
  injection Hprocs as <-. split; [exact (Hlookup 0)|exact (Hlookup 1)].
Defined.

Lemma generic_gpu_failure_is_silent_witness :
  exists worker,
    collect
      (Sample.collector (Some Sample.manager) Sample.linux
         (Raised (OtherException "no driver")))
      false
    = Returned worker
    /\ WorkerStatus.gpu_devices (Worker.status worker) = None
    /\ Worker.state_message worker = None
    /\ Worker.state worker = READY.
Proof.
  eexists.
  assert (Hret : collect
                   (Sample.collector (Some Sample.manager) Sample.linux
                      (Raised (OtherException "no driver")))
                   false
                 = Returned _) by (vm_compute; reflexivity).
  split; [exact Hret|].
  apply (generic_gpu_failure_is_silent
           (Sample.collector (Some Sample.manager) Sample.linux
              (Raised (OtherException "no driver")))
           (OtherException "no driver") _ eq_refl);
    [intros msg Heq; discriminate Heq|exact Hret].
Defined.

Lemma collect_memory_record_witness :
  exists worker,
    collect
      (Sample.collector (Some Sample.manager) Sample.linux
         (Returned [Sample.device 0]))
      false
    = Returned worker
    /\ WorkerStatus.memory (Worker.status worker)
       = Some (MemoryInfo.Build (Some 64) (Some 48) true (Some 15)).
Proof.
  eexists.
  assert (Hret : collect
                   (Sample.collector (Some Sample.manager) Sample.linux
                      (Returned [Sample.device 0]))
                   false
                 = Returned _) by (vm_compute; reflexivity).
  split; [exact Hret|].
  rewrite (collect_memory_record _ _ _ Hret). vm_compute. reflexivity.
Defined.

Lemma collect_gpu_devices_witness :
  exists worker,
    collect
      (Sample.collector (Some Sample.manager) Sample.linux
         (Returned [Sample.device 0; Sample.bare_device 1; Sample.device 1]))
      false
    = Returned worker
    /\ WorkerStatus.gpu_devices (Worker.status worker)
       = Some
           [GPUDeviceInfo.Build "gpu" 0
              (Some (MemoryInfo.Build (Some 16) (Some 16) true (Some 5)));
            Sample.bare_device 1; Sample.device 1].
Proof.
  eexists.
  assert (Hret : collect
                   (Sample.collector (Some Sample.manager) Sample.linux
                      (Returned
                         [Sample.device 0; Sample.bare_device 1;
                          Sample.device 1]))
                   false
                 = Returned _) by (vm_compute; reflexivity).
  split; [exact Hret|].
  rewrite (collect_gpu_devices
             (Sample.collector (Some Sample.manager) Sample.linux
                (Returned
                   [Sample.device 0; Sample.bare_device 1; Sample.device 1]))
             [Sample.device 0; Sample.bare_device 1; Sample.device 1] _
             eq_refl Hret).
  vm_compute. reflexivity.
Defined.

Lemma collect_system_fields_witness :
  exists worker,
    collect
      (Sample.collector (Some Sample.manager) Sample.linux
         (Returned [Sample.device 0]))
      false
    = Returned worker
    /\ WorkerStatus.cpu (Worker.status worker) = Some 8
    /\ WorkerStatus.kernel (Worker.status worker) = Some "kernel"
    /\ WorkerStatus.uptime (Worker.status worker) = Some 3600.
Proof.
  eexists.
  assert (Hret : collect
                   (Sample.collector (Some Sample.manager) Sample.linux
                      (Returned [Sample.device 0]))
                   false
                 = Returned _) by (vm_compute; reflexivity).
  split; [exact Hret|].
  destruct (collect_system_fields
              (Sample.collector (Some Sample.manager) Sample.linux
                 (Returned [Sample.device 0]))
              false
              (Sample.system_info "Ubuntu" [Sample.drive "/" 100 40] 3600) _
              eq_refl Hret)
    as (Hcpu & _ & _ & Hkernel & Huptime & _).
  split; [exact Hcpu|]. split; [exact Hkernel|exact Huptime].
Defined.

Lemma readiness_characterisation_witness :
  exists worker,
    collect
      (Sample.collector (Some Sample.manager) Sample.linux
         (Raised (GPUDetectExepction "no GPU driver")))
      false
    = Returned worker
    /\ Worker.state worker = NOT_READY
    /\ Worker.state_message worker = Some "no GPU driver".
Proof.
  eexists.
  assert (Hret : collect
                   (Sample.collector (Some Sample.manager) Sample.linux
                      (Raised (GPUDetectExepction "no GPU driver")))
                   false
                 = Returned _) by (vm_compute; reflexivity).
  split; [exact Hret|].
  destruct (readiness_characterisation _ _ _ Hret)
    as (Hstate & _ & Hmessage).
  split; [|exact Hmessage].
  apply (proj2 Hstate). right. exists "no GPU driver".
  split; [reflexivity|discriminate].
Defined.

(** ** Construction *)

Section Construction.
Context `{DetectorSchema}.

(** X18.  [__init__] decides the two detector overrides independently of
    each other.  A GPU device list that is not empty becomes the one
    custom GPU detector, registered under device "custom"; an empty list
    is treated as no list at all, so the constructed collector is the one
    built without the argument.  A given system info becomes the custom
    system-info detector.  The worker UUID is the manager's when there is
    a manager and unset otherwise. *)
Theorem init_detector_overrides (gethostname worker_ip worker_name : string)
    (worker_port : Z) (clientset : option ClientSet.t)
    (worker_manager : option WorkerManager.t)
    (gpu_devices : option (list GPUDeviceInfo.t))
    (system_info : option SystemInfo.t) :
  let self :=
    __init__ gethostname worker_ip worker_name worker_port clientset
      worker_manager gpu_devices system_info in
  let call := Constructed._detector_factory self in
  (forall device rest,
     gpu_devices = Some (device :: rest) ->
     DetectorFactoryCall.device call = Some "custom"
     /\ DetectorFactoryCall.gpu_detectors call
        = Some {["custom" := [Custom.Build _ (Some (device :: rest)) None]]})
  /\ (gpu_devices = Some [] \/ gpu_devices = None ->
      DetectorFactoryCall.device call = None
      /\ DetectorFactoryCall.gpu_detectors call = None
      /\ self
         = __init__ gethostname worker_ip worker_name worker_port clientset
             worker_manager None system_info)
  /\ DetectorFactoryCall.system_info_detector call
     = (fun si => Custom.Build _ None (Some si)) <$> system_info
  /\ Constructed._worker_uuid self
     = WorkerManager.get_worker_uuid <$> worker_manager
  /\ Constructed._hostname self = gethostname.
Proof.
  cbv zeta. unfold __init__. split; [|split; [|split; [|split]]].
  - intros device rest ->. by destruct system_info.
  - intros [-> | ->]; by destruct system_info.
  - by destruct gpu_devices as [[|device rest]|], system_info.
  - by destruct worker_manager.
  - done.
Qed.
End Construction.

Lemma init_detector_overrides_witness :
  (DetectorFactoryCall.device
     (Constructed._detector_factory
        (__init__ "host-a" "10.0.0.1" "worker-A" 10150 None None
           (Some [Sample.device 0])
           (@None (@SystemInfo.t Sample.plain_schema))))
   = Some "custom"
   /\ DetectorFactoryCall.gpu_detectors
        (Constructed._detector_factory
           (__init__ "host-a" "10.0.0.1" "worker-A" 10150 None None
              (Some [Sample.device 0])
              (@None (@SystemInfo.t Sample.plain_schema))))
      = Some {["custom" := [Custom.Build Sample.plain_schema
                              (Some [Sample.device 0]) None]]})
  /\ __init__ "host-a" "10.0.0.1" "worker-A" 10150 None None (Some [])
       (Some (Sample.system_info "Ubuntu" [] 1))
     = __init__ "host-a" "10.0.0.1" "worker-A" 10150 None None None
         (Some (Sample.system_info "Ubuntu" [] 1)).
Proof.
  split.
  - exact (proj1 (init_detector_overrides "host-a" "10.0.0.1" "worker-A"
                    10150 None None (Some [Sample.device 0])
                    (@None (@SystemInfo.t Sample.plain_schema)))
             (Sample.device 0) [] eq_refl).
  - exact (proj2 (proj2 (proj1 (proj2
             (init_detector_overrides "host-a" "10.0.0.1" "worker-A" 10150
                None None (Some [])
                (Some (Sample.system_info "Ubuntu" [] 1))))
             (or_introl eq_refl)))).
Defined.

(** ** Two calls on one collector *)


Section SharedObjects.
Context `{DetectorSchema}.

(** What the second call detects is the status the injections of the first
    call left. *)
Lemma detected_after_collect (self : WorkerStatusCollector.t)
    (initial : bool) (unified : WorkerStatus.t) :
  _inject_unified_memory (detected_status self initial) = Returned unified ->
  detected_status (after_collect self initial) initial
  = _inject_allocated_resource self
      (_inject_computed_filesystem_usage unified).
Proof.
  intros Hunified. unfold after_collect. rewrite Hunified.
  apply unified_detected_returned in Hunified as ->.
  set (flag := derived_unified_memory self initial).
  match goal with
  | |- context [_inject_allocated_resource self ?s] =>
      destruct (inject_allocated_resource_shape self s)
        as (memory & gpu & Hshape & Hmemory & Hgpu);
      pose proof (inject_allocated_resource_devices self s) as Hdevices
  end.
  rewrite Hshape in *. clear Hshape.
  destruct (inject_computed_filesystem_usage_frame
              (WorkerStatus.set_memory
                 (MemoryInfo.set_is_unified_memory flag
                    <$> WorkerStatus.memory (detected_status self initial))
                 (detected_status self initial)))
    as (filesystem & Hfs & Hfilesystem).
  rewrite Hfs in *. clear Hfs.
  unfold detected_status in *. simpl.
  destruct (DetectorFactory.detect_system_info (_detector_factory self))
    as [system_info|e], initial; simpl in *.
  - rewrite (Hgpu eq_refl); reflexivity.
  - destruct (DetectorFactory.detect_gpus (_detector_factory self))
      as [devices|e]; simpl in *.
    + rewrite Hdevices. by destruct (list_model_instances self).
    + rewrite (Hgpu eq_refl); reflexivity.
  - rewrite (Hgpu eq_refl), (Hmemory eq_refl), (Hfilesystem eq_refl).
    reflexivity.
  - destruct (DetectorFactory.detect_gpus (_detector_factory self))
      as [devices|e']; simpl in *.
    + rewrite Hdevices, (Hmemory eq_refl), (Hfilesystem eq_refl).
      by destruct (list_model_instances self).
    + rewrite (Hgpu eq_refl), (Hmemory eq_refl), (Hfilesystem eq_refl).
      reflexivity.
Qed.
(** The call leaves the collector's identity and its two other
    collaborators as they were. *)
Lemma after_collect_identity (self : WorkerStatusCollector.t) (initial : bool) :
  _worker_name (after_collect self initial) = _worker_name self
  /\ _hostname (after_collect self initial) = _hostname self
  /\ _worker_ip (after_collect self initial) = _worker_ip self
  /\ _worker_port (after_collect self initial) = _worker_port self
  /\ _clientset (after_collect self initial) = _clientset self
  /\ _worker_manager (after_collect self initial) = _worker_manager self
  /\ gpu_detection_failure (after_collect self initial) initial
     = gpu_detection_failure self initial.
Proof.
  unfold after_collect, gpu_detection_failure.
  destruct (_inject_unified_memory (detected_status self initial));
    [|done].
  repeat split. destruct initial; [done|]. simpl.
  destruct (DetectorFactory.detect_gpus (_detector_factory self)) as [l|e];
    [|done].
  by destruct (WorkerStatus.gpu_devices _).
Qed.

Lemma inject_allocated_resource_ext (self self' : WorkerStatusCollector.t)
    (status : WorkerStatus.t) :
  _clientset self' = _clientset self ->
  _worker_name self' = _worker_name self ->
  _inject_allocated_resource self' status
  = _inject_allocated_resource self status.
Proof.
  unfold _inject_allocated_resource, list_model_instances.
  by intros -> ->.
Qed.

Lemma enumerate_rpc_servers_ext (self self' : WorkerStatusCollector.t)
    (status : WorkerStatus.t) :
  _worker_manager self' = _worker_manager self ->
  enumerate_rpc_servers self' status = enumerate_rpc_servers self status.
Proof. unfold enumerate_rpc_servers. by intros ->. Qed.

Lemma inject_computed_filesystem_usage_noop (status : WorkerStatus.t) :
  (forall os,
     WorkerStatus.os status = Some os ->
     str_contains "Windows" (OperatingSystemInfo.name os) = false) ->
  _inject_computed_filesystem_usage status = status.
Proof.
  unfold _inject_computed_filesystem_usage. intros Hos.
  destruct (WorkerStatus.os status) as [os|]; [|done].
  by rewrite (Hos os eq_refl).
Qed.

Lemma inject_allocated_resource_again (self : WorkerStatusCollector.t)
    (status : WorkerStatus.t) :
  _inject_allocated_resource self (_inject_allocated_resource self status)
  = _inject_allocated_resource self status.
Proof.
  unfold _inject_allocated_resource.
  destruct (list_model_instances self) as [items|e]; [|done].
  destruct status as [cpu [m|] swap filesystem os kernel uptime [devices|] rpc];
    simpl; try done; by rewrite inject_vram_idempotent.
Qed.

(** The allocated-resource step does not change what the unified-memory
    step derives and writes. *)
Lemma unified_after_allocated (self : WorkerStatusCollector.t)
    (status unified : WorkerStatus.t) :
  _inject_unified_memory status = Returned unified ->
  _inject_unified_memory (_inject_allocated_resource self unified)
  = Returned (_inject_allocated_resource self unified).
Proof.
  unfold _inject_unified_memory, _inject_allocated_resource.
  destruct status
    as [cpu memory swap filesystem os kernel uptime [[|device rest]|] rpc];
    simpl.
  - intros Hret. injection Hret as <-.
    by destruct (list_model_instances self), memory.
  - destruct (GPUDeviceInfo.memory device) as [dm|] eqn:Hdm; simpl;
      intros Hret; [|discriminate].
    injection Hret as <-.
    destruct (list_model_instances self) as [items|e], memory as [m|];
      simpl; rewrite ?Hdm; try done;
      destruct (inject_vram _ rest) as [rest' e']; done.
  - intros Hret. injection Hret as <-.
    by destruct (list_model_instances self), memory.
Qed.

(** X19.  On a collector whose detector shares its objects between calls,
    a second call of [collect] gives the same outcome as the first (the
    same record, or the same exception) whenever the detected OS name does
    not contain "Windows", or no OS or no system info is detected: what
    the first call wrote in place to the memory record and to the devices
    is written again with the same values. *)
Theorem second_collect_same_without_computed_entry
    (self : WorkerStatusCollector.t) (initial : bool) :
  (forall system_info os,
     DetectorFactory.detect_system_info (_detector_factory self)
     = Returned system_info ->
     SystemInfo.os system_info = Some os ->
     str_contains "Windows" (OperatingSystemInfo.name os) = false) ->
  collect (after_collect self initial) initial = collect self initial.
Proof.
  intros Hos.
  destruct (_inject_unified_memory (detected_status self initial))
    as [unified|e] eqn:Hunified.
  - rewrite !collect_steps.
    destruct (after_collect_identity self initial)
      as (Hname & Hhost & Hip & Hport & Hclient & Hmanager & Hfailure).
    rewrite (detected_after_collect self initial unified Hunified).
    rewrite Hunified. simpl.
    assert (Hunified_os : forall os,
              WorkerStatus.os unified = Some os ->
              str_contains "Windows" (OperatingSystemInfo.name os) = false).
    { intros os Hunified_os.
      apply unified_detected_returned in Hunified. subst unified.
      assert (Hdetected : WorkerStatus.os (detected_status self initial)
                          = Some os)
        by by destruct (detected_status self initial).
      rewrite detected_system_fields in Hdetected by done.
      destruct (DetectorFactory.detect_system_info (_detector_factory self))
        as [system_info|] eqn:Hsystem; [|discriminate].
      by apply (Hos system_info). }
    rewrite (inject_computed_filesystem_usage_noop unified Hunified_os).
    rewrite (unified_after_allocated self _ unified Hunified). simpl.
    rewrite inject_computed_filesystem_usage_noop.
    + rewrite (inject_allocated_resource_ext self _ _ Hclient Hname).
      rewrite inject_allocated_resource_again.
      rewrite (enumerate_rpc_servers_ext self _ _ Hmanager).
      unfold _worker_uuid.
      by rewrite Hname, Hhost, Hip, Hport, Hmanager, Hfailure.
    + intros os Hallocated_os. apply Hunified_os.
      destruct (inject_allocated_resource_shape self unified)
        as (memory & gpu & Hshape & _).
      rewrite Hshape in Hallocated_os. by destruct unified.
  - unfold after_collect. by rewrite Hunified.
Qed.
End SharedObjects.

Lemma second_collect_same_without_computed_entry_witness :
  (collect_twice
     (Sample.collector (Some Sample.manager) Sample.linux
        (Returned [Sample.device 0; Sample.device 2]))
     false).2
  = (collect_twice
       (Sample.collector (Some Sample.manager) Sample.linux
          (Returned [Sample.device 0; Sample.device 2]))
       false).1.
Proof.
  apply (second_collect_same_without_computed_entry
           (Sample.collector (Some Sample.manager) Sample.linux
              (Returned [Sample.device 0; Sample.device 2]))
           false).
  intros system_info os Hsystem Hos.
  injection Hsystem as <-. injection Hos as <-. reflexivity.
Defined.
